(** * Request pipeline of the admin server (server/admin_server.go)

    A shallow embedding of [AdminServer]: the route table built by
    [InitRoute] on top of a model of gin's router groups, the middlewares
    [AuthHandler] and [NodeQuotaHandler], the cache wrappers [WrapperCache]
    and [WrapperCacheDuration], and the package-level variable
    [NodeCollector]. *)

From Stdlib Require Import ZArith Lia Ascii String.
From stdpp Require Import base strings list gmap.

Local Open Scope string_scope.
Local Open Scope list_scope.

(** ** Durations, errors, configuration *)

(** [time.Duration] is an int64 count of nanoseconds.  The server only
    compares a configured duration with zero and hands durations on; it
    does no arithmetic on them that could wrap around. *)
Definition Duration : Type := Z.
Definition Second : Duration := 1000000000%Z.

(** const DefaultAPICacheDuration = time.Second * 2 *)
Definition DefaultAPICacheDuration : Duration := (Second * 2)%Z.

(** A Go [error] value as the pipeline sees it: a code and a message. *)
Record error : Type := mkError { err_code : string; err_message : string }.

Definition ErrRequestAccessDenied : string := "ErrRequestAccessDenied".

(** [common.Error(code, common.Field("error", err))]: an error of the given
    code whose message is taken from the field. *)
Definition common_Error (code : string) (field : error) : error :=
  {| err_code := code; err_message := err_message field |}.

(** The parts of [config.CloudConfig] that the server reads. *)
Record AdminServerConfig : Type := {
  CacheEnable : bool;
  CacheDuration : Duration
}.

Record PluginConfig : Type := {
  Functions : list string;
  Objects : list string
}.

Record CloudConfig : Type := {
  AdminServer_ : AdminServerConfig;
  Plugin : PluginConfig
}.

(** ** Handlers *)

(** The options handed to [cache.WCacheByRequestURI]:
    [cache.KeyWithGinContext keys], [cache.WithoutHeader ()] and
    [cache.WithoutHeaderIgnore names]. *)
Record CacheOptions : Type := {
  ginCtxKeys : list string;
  withoutHeader : bool;
  withoutHeaderIgnore : list string
}.

(** The values of type [gin.HandlerFunc] that [InitRoute] installs.  An API
    method [s.api.M] is named by the string ["M"]; the entries of
    [s.ExternalHandlers] are opaque and named as well. *)
Inductive HandlerFunc : Type :=
  | NoRouteHandler
  | NoMethodHandler
  | Health
  | RequestIDHandler
  | LoggerHandler
  | AuthHandler
  | External (name : string)
  | NodeQuotaHandler
  | Wrapper (handler : string)
  | WrapperRaw (handler : string) (abort : bool)
  | WrapperWithLock
  | WCacheByRequestURI (dur : Duration) (handle : HandlerFunc) (opts : CacheOptions).

Definition is_auth (h : HandlerFunc) : bool :=
  match h with AuthHandler => true | _ => false end.

Definition is_external (h : HandlerFunc) : bool :=
  match h with External _ => true | _ => false end.

Definition is_lock (h : HandlerFunc) : bool :=
  match h with WrapperWithLock => true | _ => false end.

Definition is_quota (h : HandlerFunc) : bool :=
  match h with NodeQuotaHandler => true | _ => false end.

(** The terminal handlers of the API routes: [common.Wrapper h], bare or
    behind the cache. *)
Definition is_terminal (h : HandlerFunc) : bool :=
  match h with
  | Wrapper _ | WCacheByRequestURI _ _ _ => true
  | _ => false
  end.

(** ** gin's router groups *)

Record RouterGroup : Type := {
  Handlers : list HandlerFunc;
  basePath : string
}.

Record RouteInfo : Type := {
  Method : string;
  Path : string;
  chain : list HandlerFunc
}.

Record Engine : Type := {
  root : RouterGroup;
  noRoute : list HandlerFunc;
  noMethod : list HandlerFunc;
  allNoRoute : list HandlerFunc;
  allNoMethod : list HandlerFunc;
  trees : list RouteInfo
}.

(** [gin.New ()] *)
Definition gin_New : Engine :=
  {| root := {| Handlers := []; basePath := "/" |};
     noRoute := []; noMethod := []; allNoRoute := []; allNoMethod := [];
     trees := [] |}.

(** Splitting a path at its slashes. *)
Fixpoint split_slash (s acc : string) : list string :=
  match s with
  | EmptyString => [acc]
  | String c s' =>
      if Ascii.eqb c "/"%char then acc :: split_slash s' ""
      else split_slash s' (acc +:+ String c "")
  end.

Definition nonempty (s : string) : bool :=
  match s with EmptyString => false | _ => true end.

Definition lastChar (s : string) : option ascii :=
  last (list_ascii_of_string s).

(** [path.Join abs rel] on rooted paths without dot segments: the non-empty
    segments of both, each preceded by a slash. *)
Definition path_Join (abs rel : string) : string :=
  match filter (fun x => Is_true (nonempty x)) (split_slash (abs +:+ "/" +:+ rel) "") with
  | [] => "/"
  | segs => fold_right (fun seg acc => "/" +:+ seg +:+ acc) "" segs
  end.

Definition ends_with_slash (s : string) : bool :=
  match lastChar s with
  | Some c => Ascii.eqb c "/"%char
  | None => false
  end.

(** gin's [joinPaths] *)
Definition joinPaths (absolutePath relativePath : string) : string :=
  if nonempty relativePath then
    let finalPath := path_Join absolutePath relativePath in
    if ends_with_slash relativePath && negb (ends_with_slash finalPath)
    then finalPath +:+ "/"
    else finalPath
  else absolutePath.

(** [group.combineHandlers handlers] *)
Definition combineHandlers (group : RouterGroup) (handlers : list HandlerFunc)
  : list HandlerFunc :=
  Handlers group ++ handlers.

(** [group.Group relativePath] *)
Definition Group (group : RouterGroup) (relativePath : string) : RouterGroup :=
  {| Handlers := combineHandlers group [];
     basePath := joinPaths (basePath group) relativePath |}.

(** [group.Use middleware...] on a group other than the engine's own *)
Definition Use (middleware : list HandlerFunc) (group : RouterGroup) : RouterGroup :=
  {| Handlers := Handlers group ++ middleware; basePath := basePath group |}.

(** [group.handle httpMethod relativePath handlers] *)
Definition handle (httpMethod : string) (group : RouterGroup)
    (relativePath : string) (handlers : list HandlerFunc) (engine : Engine) : Engine :=
  {| root := root engine;
     noRoute := noRoute engine; noMethod := noMethod engine;
     allNoRoute := allNoRoute engine; allNoMethod := allNoMethod engine;
     trees := trees engine ++
       [ {| Method := httpMethod;
            Path := joinPaths (basePath group) relativePath;
            chain := combineHandlers group handlers |} ] |}.

Definition GET := handle "GET".
Definition PUT := handle "PUT".
Definition POST := handle "POST".
Definition DELETE := handle "DELETE".

(** [engine.NoRoute handlers], with its [rebuild404Handlers] *)
Definition engine_NoRoute (handlers : list HandlerFunc) (engine : Engine) : Engine :=
  {| root := root engine;
     noRoute := handlers; noMethod := noMethod engine;
     allNoRoute := combineHandlers (root engine) handlers;
     allNoMethod := allNoMethod engine;
     trees := trees engine |}.

(** [engine.NoMethod handlers], with its [rebuild405Handlers] *)
Definition engine_NoMethod (handlers : list HandlerFunc) (engine : Engine) : Engine :=
  {| root := root engine;
     noRoute := noRoute engine; noMethod := handlers;
     allNoRoute := allNoRoute engine;
     allNoMethod := combineHandlers (root engine) handlers;
     trees := trees engine |}.

(** [engine.Use middleware...]: extends the engine's own group and rebuilds
    the 404 and 405 chains. *)
Definition engine_Use (middleware : list HandlerFunc) (engine : Engine) : Engine :=
  let g := Use middleware (root engine) in
  {| root := g;
     noRoute := noRoute engine; noMethod := noMethod engine;
     allNoRoute := combineHandlers g (noRoute engine);
     allNoMethod := combineHandlers g (noMethod engine);
     trees := trees engine |}.

(** ** The server *)

(** [plugin.QuotaCollector]: a function from a namespace to the current
    counts, or an error. *)
Definition QuotaCollector : Type := string -> error + list (string * Z).

(** The field of [api.API] that the server reads directly; a nil collector
    is [None]. *)
Record API : Type := {
  NodeNumberCollector : option QuotaCollector
}.

(** [AdminServer]; a nil [api] pointer is [None].  The services [Auth],
    [License] and [Quota] and the logger are interfaces whose behaviour is
    given in the section below; the content of the store behind
    [APICache] is a field of [World]. *)
Record AdminServer : Type := {
  ExternalHandlers : list string;
  cfg : CloudConfig;
  api : option API;
  router : Engine
}.

(** Package-level variables of package [server]. *)
Record Package : Type := {
  NodeCollector : option QuotaCollector
}.

(** The state of the package when the program starts: [NodeCollector] has
    the zero value of its type. *)
Definition Package_init : Package := {| NodeCollector := None |}.

(** func (s *AdminServer) WrapperCacheDuration(handler, dur) *)
Definition WrapperCacheDuration (s : AdminServer) (handler : string) (dur : Duration)
  : HandlerFunc :=
  WCacheByRequestURI dur (Wrapper handler)
    {| ginCtxKeys := ["namespace"];
       withoutHeader := true;
       withoutHeaderIgnore := ["Content-Type"] |}.

(** The options [WrapperCacheDuration] passes. *)
Definition APICacheOptions : CacheOptions :=
  {| ginCtxKeys := ["namespace"];
     withoutHeader := true;
     withoutHeaderIgnore := ["Content-Type"] |}.

(** func (s *AdminServer) WrapperCache(handler) *)
Definition WrapperCache (s : AdminServer) (handler : string) : HandlerFunc :=
  if CacheEnable (AdminServer_ (cfg s)) then
    let dur := DefaultAPICacheDuration in
    let dur := if (CacheDuration (AdminServer_ (cfg s)) >? 0)%Z
               then CacheDuration (AdminServer_ (cfg s)) else dur in
    WrapperCacheDuration s handler dur
  else Wrapper handler.

(** func (s *AdminServer) GetV1RouterGroup() *)
Definition GetV1RouterGroup (s : AdminServer) : RouterGroup :=
  let router := Group (root (router s)) "v1" in
  let router := Use [AuthHandler] router in
  let router := Use (map External (ExternalHandlers s)) router in
  router.

(** func (s *AdminServer) GetV2RouterGroup() *)
Definition GetV2RouterGroup (s : AdminServer) : RouterGroup :=
  let router := Group (root (router s)) "v2" in
  let router := Use [AuthHandler] router in
  let router := Use (map External (ExternalHandlers s)) router in
  router.

Definition set_router (s : AdminServer) (e : Engine) : AdminServer :=
  {| ExternalHandlers := ExternalHandlers s; cfg := cfg s; api := api s; router := e |}.

Definition SetAPI (a : API) (s : AdminServer) : AdminServer :=
  {| ExternalHandlers := ExternalHandlers s; cfg := cfg s; api := Some a;
     router := router s |}.

(** Registration statements read top to bottom. *)
Notation "e |> f" := (f e) (at level 45, left associativity, only parsing).

(** A block of registrations guarded by a Go [if]. *)
Definition when (b : bool) (f : Engine -> Engine) (e : Engine) : Engine :=
  if b then f e else e.

(** func (s *AdminServer) InitRoute(): the registrations in source order.
    The first line of the source that dereferences [s.api] panics on a nil
    pointer, which is [None] here. *)
Definition InitRoute (s : AdminServer) (pkg : Package) : option (AdminServer * Package) :=
  let e := router s
    |> engine_NoRoute [NoRouteHandler]
    |> engine_NoMethod [NoMethodHandler] in
  let e := e |> GET (root e) "/health" [Health] in
  let e := e |> engine_Use [RequestIDHandler] |> engine_Use [LoggerHandler] in
  match api s with
  | None => None
  | Some a =>
    let pkg := {| NodeCollector := NodeNumberCollector a |} in
    let s := set_router s e in
    let v1 := GetV1RouterGroup s in
    let configs := Group v1 "/configs" in
    let e := e
      |> GET configs "/:name" [WrapperCache s "GetConfig"]
      |> PUT configs "/:name" [WrapperWithLock; Wrapper "UpdateConfig"]
      |> DELETE configs "/:name" [WrapperRaw "ValidateResourceForDeleting" true; Wrapper "DeleteConfig"]
      |> POST configs "" [WrapperRaw "ValidateResourceForCreating" true; Wrapper "CreateConfig"]
      |> GET configs "" [WrapperCache s "ListConfig"]
      |> GET configs "/:name/apps" [Wrapper "GetAppByConfig"] in
    let registry := Group v1 "/registries" in
    let e := e
      |> GET registry "/:name" [Wrapper "GetRegistry"]
      |> PUT registry "/:name" [Wrapper "UpdateRegistry"]
      |> POST registry "/:name/refresh" [Wrapper "RefreshRegistryPassword"]
      |> DELETE registry "/:name" [WrapperRaw "ValidateResourceForDeleting" true; Wrapper "DeleteRegistry"]
      |> POST registry "" [WrapperRaw "ValidateResourceForCreating" true; Wrapper "CreateRegistry"]
      |> GET registry "" [WrapperCache s "ListRegistry"]
      |> GET registry "/:name/apps" [Wrapper "GetAppByRegistry"] in
    let certificate := Group v1 "/certificates" in
    let e := e
      |> GET certificate "/:name" [Wrapper "GetCertificate"]
      |> PUT certificate "/:name" [WrapperWithLock; Wrapper "UpdateCertificate"]
      |> DELETE certificate "/:name" [WrapperRaw "ValidateResourceForDeleting" true; Wrapper "DeleteCertificate"]
      |> POST certificate "" [WrapperRaw "ValidateResourceForCreating" true; Wrapper "CreateCertificate"]
      |> GET certificate "" [WrapperCache s "ListCertificate"]
      |> GET certificate "/:name/apps" [Wrapper "GetAppByCertificate"] in
    let secrets := Group v1 "/secrets" in
    let e := e
      |> GET secrets "/:name" [Wrapper "GetSecret"]
      |> PUT secrets "/:name" [Wrapper "UpdateSecret"]
      |> DELETE secrets "/:name" [WrapperRaw "ValidateResourceForDeleting" true; Wrapper "DeleteSecret"]
      |> POST secrets "" [WrapperRaw "ValidateResourceForCreating" true; Wrapper "CreateSecret"]
      |> GET secrets "" [WrapperCache s "ListSecret"]
      |> GET secrets "/:name/apps" [Wrapper "GetAppBySecret"] in
    let nodes := Group v1 "/nodes" in
    let e := e
      |> GET nodes "/:name" [WrapperCache s "GetNode"]
      |> PUT nodes "" [Wrapper "GetNodes"]
      |> GET nodes "/:name/apps" [WrapperCache s "GetAppByNode"]
      |> GET nodes "/:name/functions" [Wrapper "GetFunctionsByNode"]
      |> GET nodes "/:name/stats" [WrapperCache s "GetNodeStats"]
      |> PUT nodes "/:name" [WrapperWithLock; Wrapper "UpdateNode"]
      |> DELETE nodes "/:name" [Wrapper "DeleteNode"]
      |> POST nodes "" [WrapperWithLock; NodeQuotaHandler; Wrapper "CreateNode"]
      |> GET nodes "" [WrapperCache s "ListNode"]
      |> GET nodes "/:name/deploys" [WrapperCache s "GetNodeDeployHistory"]
      |> GET nodes "/:name/init" [WrapperCache s "GenInitCmdFromNode"]
      |> PUT nodes "/:name/mode" [Wrapper "UpdateNodeMode"]
      |> PUT nodes "/:name/properties" [Wrapper "UpdateNodeProperties"]
      |> GET nodes "/:name/properties" [WrapperCache s "GetNodeProperties"]
      |> PUT nodes "/:name/core/configs" [Wrapper "UpdateCoreApp"]
      |> GET nodes "/:name/core/configs" [WrapperCache s "GetCoreAppConfigs"]
      |> GET nodes "/:name/core/versions" [WrapperCache s "GetCoreAppVersions"] in
    let apps := Group v1 "/apps" in
    let e := e
      |> GET apps "/:name" [WrapperCache s "GetApplication"]
      |> GET apps "/:name/configs" [WrapperCache s "GetSysAppConfigs"]
      |> GET apps "/:name/secrets" [WrapperCache s "GetSysAppSecrets"]
      |> GET apps "/:name/certificates" [WrapperCache s "GetSysAppCertificates"]
      |> GET apps "/:name/registries" [WrapperCache s "GetSysAppRegistries"]
      |> PUT apps "/:name" [WrapperWithLock; Wrapper "UpdateApplication"]
      |> DELETE apps "/:name" [WrapperRaw "ValidateResourceForDeleting" true; Wrapper "DeleteApplication"]
      |> POST apps "" [WrapperRaw "ValidateResourceForCreating" true; WrapperWithLock; Wrapper "CreateApplication"]
      |> GET apps "" [WrapperCache s "ListApplication"] in
    let namespace := Group v1 "/namespace" in
    let e := e
      |> POST namespace "" [Wrapper "CreateNamespace"]
      |> GET namespace "" [WrapperCache s "GetNamespace"]
      |> DELETE namespace "" [Wrapper "DeleteNamespace"] in
    let function := Group v1 "/functions" in
    let e := e
      |> GET function "" [Wrapper "ListFunctionSources"]
      |> when (negb (length (Functions (Plugin (cfg s))) =? 0)%nat) (fun e => e
           |> GET function "/:source/functions" [Wrapper "ListFunctions"]
           |> GET function "/:source/functions/:name/versions" [Wrapper "ListFunctionVersions"]
           |> POST function "/:source/functions/:name/versions/:version" [Wrapper "ImportFunction"]) in
    let objects := Group v1 "/objects" in
    let e := e
      |> GET objects "" [Wrapper "ListObjectSources"]
      |> when (negb (length (Objects (Plugin (cfg s))) =? 0)%nat) (fun e => e
           |> GET objects "/:source/buckets" [Wrapper "ListBuckets"]
           |> GET objects "/:source/buckets/:bucket/objects" [Wrapper "ListBucketObjects"]) in
    let properties := Group v1 "properties" in
    let e := e |> GET properties "/:name" [Wrapper "GetProperty"] in
    let sysconfig := Group v1 "sysconfig" in
    let e := e
      |> GET sysconfig "/baetyl_version/latest" [Wrapper "func:Module.GetLatestModule"]
      |> GET sysconfig "/baetyl-function-runtime" [Wrapper "func:Func.ListRuntimes"] in
    let module := Group v1 "modules" in
    let e := e
      |> GET module "" [WrapperCache s "ListModules"]
      |> GET module "/:name" [WrapperCache s "GetModules"]
      |> GET module "/:name/version/:version" [WrapperCache s "GetModuleByVersion"]
      |> GET module "/:name/latest" [WrapperCache s "GetLatestModule"]
      |> POST module "" [Wrapper "CreateModule"]
      |> PUT module "/:name/version/:version" [Wrapper "UpdateModule"]
      |> DELETE module "/:name" [Wrapper "DeleteModules"]
      |> DELETE module "/:name/version/:version" [Wrapper "DeleteModules"] in
    let quotas := Group v1 "/quotas" in
    let e := e |> GET quotas "" [WrapperCache s "GetQuota"] in
    let yaml := Group v1 "yaml" in
    let e := e
      |> POST yaml "" [Wrapper "CreateYamlResource"]
      |> PUT yaml "" [Wrapper "UpdateYamlResource"]
      |> POST yaml "/delete" [Wrapper "DeleteYamlResource"] in
    let v2 := GetV2RouterGroup s in
    let objects := Group v2 "/objects" in
    let e := e
      |> GET objects "" [WrapperCache s "ListObjectSourcesV2"]
      |> when (negb (length (Objects (Plugin (cfg s))) =? 0)%nat) (fun e => e
           |> GET objects "/:source/buckets" [Wrapper "ListBucketsV2"]
           |> GET objects "/:source/buckets/:bucket/objects" [Wrapper "ListBucketObjectsV2"]
           |> GET objects "/:source/buckets/:bucket/object" [Wrapper "GetObjectPathV2"]
           |> GET objects "/:source/buckets/:bucket/object/put" [Wrapper "GetObjectPutPathV2"]) in
    Some (set_router s e, pkg)
  end.

(** func (s *AdminServer) GetRoute() *)
Definition GetRoute (s : AdminServer) : Engine := router s.

(** ** Requests, contexts and the shared state *)

Record Request : Type := {
  req_Method : string;
  req_Path : string;
  req_Query : list (string * string);
  req_Header : gmap string string
}.

(** The uniform response envelope: a payload on success; an error code, a
    message and the trace id on failure. *)
Inductive Envelope : Type :=
  | Success (payload : string)
  | Failure (code message trace : string).

(** [gin.Context]: the request, the context keys, whether [Abort] was
    called, and what was written to the response. *)
Record Context : Type := {
  Request_ : Request;
  Keys : gmap string string;
  aborted : bool;
  Writer_Header : gmap string string;
  Writer_Body : option Envelope
}.

Inductive LogValue : Type :=
  | LStr (v : string)
  | LErr (e : error).

Record LogEntry : Type := {
  log_msg : string;
  log_fields : list (string * LogValue)
}.

(** An entry of the cache store. *)
Record CacheEntry : Type := {
  payload : Envelope;
  contentType : option string;
  headers : gmap string string;
  expiresAt : Z
}.

(** The operations performed on the cache store, in order. *)
Inductive CacheOp : Type :=
  | CacheGet (key : string)
  | CacheSet (key : string) (ttl : Duration).

(** What outlives a request: the package variables, the log, the store
    behind [s.APICache], the leases of the lock service, and the clock. *)
Record World : Type := {
  pkg : Package;
  logs : list LogEntry;
  APICache : gmap string CacheEntry;
  cache_ops : list CacheOp;
  leases : gset string;
  now : Z
}.

Definition set_Keys (k : gmap string string) (c : Context) : Context :=
  {| Request_ := Request_ c; Keys := k; aborted := aborted c;
     Writer_Header := Writer_Header c; Writer_Body := Writer_Body c |}.

Definition write_response (abort : bool) (hdr : gmap string string)
    (body : Envelope) (c : Context) : Context :=
  {| Request_ := Request_ c; Keys := Keys c; aborted := abort || aborted c;
     Writer_Header := hdr; Writer_Body := Some body |}.

Definition log_Error (msg : string) (fields : list (string * LogValue)) (w : World) : World :=
  {| pkg := pkg w; logs := logs w ++ [ {| log_msg := msg; log_fields := fields |} ];
     APICache := APICache w; cache_ops := cache_ops w; leases := leases w; now := now w |}.

Definition set_leases (l : gset string) (w : World) : World :=
  {| pkg := pkg w; logs := logs w; APICache := APICache w; cache_ops := cache_ops w;
     leases := l; now := now w |}.

Definition cache_get (key : string) (w : World) : option CacheEntry * World :=
  (APICache w !! key,
   {| pkg := pkg w; logs := logs w; APICache := APICache w;
      cache_ops := cache_ops w ++ [CacheGet key]; leases := leases w; now := now w |}).

Definition cache_set (key : string) (e : CacheEntry) (ttl : Duration) (w : World) : World :=
  {| pkg := pkg w; logs := logs w; APICache := <[key := e]> (APICache w);
     cache_ops := cache_ops w ++ [CacheSet key ttl]; leases := leases w; now := now w |}.

(** [c.GetString key]: the empty string when the key is absent. *)
Definition GetString (key : string) (c : Context) : string :=
  default "" (Keys c !! key).

(** [cc.GetNamespace ()] *)
Definition GetNamespace (c : Context) : string := GetString "namespace" c.

(** [c.Request.Header.Get name] *)
Definition Header_Get (name : string) (c : Context) : string :=
  default "" (req_Header (Request_ c) !! name).

(** Modelled from the spec: [cc.GetTrace ()] of package common, which is not
    part of this file; it yields the trace id of the request as a log field. *)
Definition GetTrace (c : Context) : string * LogValue :=
  ("trace", LStr (GetString "trace" c)).

(** Modelled from the spec: [common.PopulateFailedResponse cc err abort] of
    package common, which is not part of this file.  It emits the failure
    envelope (error code, message, trace id) and, when [abort] is set,
    aborts the chain so that no later handler runs. *)
Definition PopulateFailedResponse (c : Context) (err : error) (abort : bool) : Context :=
  write_response abort
    (<["Content-Type" := "application/json"]> (Writer_Header c))
    (Failure (err_code err) (err_message err) (GetString "trace" c)) c.

(** Modelled from the spec: the success side of the response envelope. *)
Definition PopulateSuccessResponse (c : Context) (res : string) : Context :=
  write_response false
    (<["Content-Type" := "application/json"]> (Writer_Header c))
    (Success res) c.

(** ** The cache key and the header policy *)

(** Query parameters in ascending order of their names. *)
Fixpoint insert_param (p : string * string) (l : list (string * string))
  : list (string * string) :=
  match l with
  | [] => [p]
  | q :: l' => if String.leb (fst p) (fst q) then p :: l else q :: insert_param p l'
  end.

Definition sort_params (l : list (string * string)) : list (string * string) :=
  fold_right insert_param [] l.

Definition encode_params (l : list (string * string)) : string :=
  fold_right (fun p acc => "&" +:+ fst p +:+ "=" +:+ snd p +:+ acc) "" l.

(** Modelled from the spec: the key of a cached response, derived in package
    cache of baetyl-go, which is not part of this file.  It is the
    concatenation of the request path, the sorted query parameters, and the
    values of the context keys named by [cache.KeyWithGinContext] (the
    tenant identity). *)
Definition cacheKey (opts : CacheOptions) (c : Context) : string :=
  req_Path (Request_ c) +:+ "?" +:+
  encode_params (sort_params (req_Query (Request_ c))) +:+ "#" +:+
  fold_right (fun k acc => GetString k c +:+ ";" +:+ acc) "" (ginCtxKeys opts).

(** Modelled from the spec: the header policy of the cache.  With
    [cache.WithoutHeader] only the headers listed by
    [cache.WithoutHeaderIgnore] are kept. *)
Definition cachedHeaders (opts : CacheOptions) (hdr : gmap string string)
  : gmap string string :=
  if withoutHeader opts
  then filter (fun kv => fst kv ∈ withoutHeaderIgnore opts) hdr
  else hdr.

(** Modelled from the spec: the wrapped handler completed successfully (a
    non-error result), the condition for writing its response to the cache. *)
Definition succeeded (c : Context) : bool :=
  match Writer_Body c with
  | Some (Success _) => negb (aborted c)
  | _ => false
  end.

(** Modelled from the spec: freshness of an entry of the cache store, which
    is part of baetyl-go and not of this file.  An entry is never served
    after its expiry. *)
Definition fresh (w : World) (e : CacheEntry) : bool := (now w <=? expiresAt e)%Z.

(** Modelled from the spec: what a lookup in the store yields to the
    request, a fresh entry or nothing (a miss or an expired entry). *)
Definition fresh_entry (w : World) (found : option CacheEntry) : option CacheEntry :=
  match found with
  | Some e => if fresh w e then Some e else None
  | None => None
  end.

(** Modelled from the spec: replaying a cached entry returns its payload,
    content type and headers. *)
Definition replyWithCache (e : CacheEntry) (c : Context) : Context :=
  let hdr := headers e ∪ Writer_Header c in
  let hdr := match contentType e with
             | Some ct => <["Content-Type" := ct]> hdr
             | None => hdr
             end in
  write_response false hdr (payload e) c.

(** Modelled from the spec: the entry written for a response, with the
    filtered headers and the expiry [dur] from now. *)
Definition newCacheEntry (opts : CacheOptions) (dur : Duration) (w : World)
    (c : Context) : option CacheEntry :=
  match Writer_Body c with
  | Some body =>
      Some {| payload := body;
              contentType := Writer_Header c !! "Content-Type";
              headers := cachedHeaders opts (Writer_Header c);
              expiresAt := (now w + dur)%Z |}
  | None => None
  end.

(** Modelled from the spec: the lease name of [common.WrapperWithLock],
    derived from the tenant and the resource the request addresses. *)
Definition lockName (c : Context) : string :=
  GetNamespace c +:+ "_" +:+ req_Path (Request_ c).


(** ** Handlers at work *)

Section Pipeline.

(** The collaborators behind the interfaces the server holds.
    [Authenticate] is [s.Auth.Authenticate]: it reads the request and may
    set context keys (the resolved namespace) besides returning an error.
    [CheckQuota] is [s.api.Quota.CheckQuota].  [Lock] and [Unlock] are
    [s.api.Locker.Lock] and [s.api.Locker.Unlock] over the set of live
    leases.  [api_method m] is the API method [s.api.m].  [opaque] gives
    the handlers of other files (request id, logger, health, not found,
    validators, external handlers), which act on the context. *)
Variable Authenticate : Request -> gmap string string -> gmap string string * option error.
Variable CheckQuota : string -> option QuotaCollector -> option error.
Variable Lock : string -> gset string -> error + gset string.
Variable Unlock : string -> gset string -> gset string.
Variable api_method : string -> Context -> error + string.
Variable opaque : HandlerFunc -> Context -> Context.

(** The constructors of the three services, which may fail. *)
Variable NewAuthService : CloudConfig -> option error.
Variable NewLicenseService : CloudConfig -> option error.
Variable NewQuotaService : CloudConfig -> option error.

(** func NewAdminServer(config): no package variable is written, and the
    [api] field is left nil. *)
Definition NewAdminServer (config : CloudConfig) (p : Package)
  : (error + AdminServer) * Package :=
  match NewAuthService config with
  | Some err => (inl err, p)
  | None =>
    match NewLicenseService config with
    | Some err => (inl err, p)
    | None =>
      match NewQuotaService config with
      | Some err => (inl err, p)
      | None =>
        (inr {| ExternalHandlers := []; cfg := config; api := None;
                router := gin_New |}, p)
      end
    end
  end.

(** func (s *AdminServer) AuthHandler(c) *)
Definition AuthHandler_body (s : AdminServer) (c : Context) (w : World)
  : Context * World :=
  let '(keys, err) := Authenticate (Request_ c) (Keys c) in
  let cc := set_Keys keys c in
  match err with
  | Some err =>
      let w := log_Error "request authenticate failed"
                 [ GetTrace cc;
                   ("namespace", LStr (GetNamespace cc));
                   ("authorization", LStr (Header_Get "Authorization" cc));
                   ("error", LErr err) ] w in
      (PopulateFailedResponse cc (common_Error ErrRequestAccessDenied err) true, w)
  | None => (cc, w)
  end.

(** func (s *AdminServer) NodeQuotaHandler(c); [None] is the panic of
    dereferencing a nil [s.api]. *)
Definition NodeQuotaHandler_body (s : AdminServer) (c : Context) (w : World)
  : option (Context * World) :=
  let cc := c in
  let namespace := GetNamespace cc in
  match api s with
  | None => None
  | Some _ =>
    match CheckQuota namespace (NodeCollector (pkg w)) with
    | Some err =>
        let w := log_Error "quota out of limit"
                   [ GetTrace cc;
                     ("namespace", LStr (GetNamespace cc));
                     ("error", LErr err) ] w in
        Some (PopulateFailedResponse cc err true, w)
    | None => Some (cc, w)
    end
  end.

(** Modelled from the spec: [common.Wrapper handler] of package common,
    which is not part of this file.  It runs the terminal handler and
    turns its result or error into the response envelope. *)
Definition Wrapper_body (handler : string) (c : Context) : Context :=
  match api_method handler c with
  | inl err => PopulateFailedResponse c err false
  | inr res => PopulateSuccessResponse c res
  end.

(** Modelled from the spec: [cache.WCacheByRequestURI store dur handle opts]
    of baetyl-go, which is not part of this file.  The key is looked up in
    the store; a fresh hit is replayed without calling [handle]; on a miss
    or an expired entry [handle] runs, and only a successful response is
    written to the store, with the time-to-live [dur]. *)
Definition WCacheByRequestURI_body (dur : Duration)
    (handle : Context -> World -> option (Context * World))
    (opts : CacheOptions) (c : Context) (w : World) : option (Context * World) :=
  let key := cacheKey opts c in
  let '(found, w) := cache_get key w in
  match fresh_entry w found with
  | Some e => Some (replyWithCache e c, w)
  | None =>
      match handle c w with
      | Some (c', w') =>
          match (if succeeded c' then newCacheEntry opts dur w' c' else None) with
          | Some e' => Some (c', cache_set key e' dur w')
          | None => Some (c', w')
          end
      | None => None
      end
  end.

(** Modelled from the spec: [common.WrapperWithLock lock unlock] of package
    common, which is not part of this file.  It acquires the lease before
    the rest of the chain ([next], gin's [c.Next ()]) and releases it
    afterwards; when the lease cannot be acquired it emits the failure
    envelope and aborts. *)
Definition WrapperWithLock_body {T : Type}
    (next : Context -> World -> option (Context * World * list T))
    (c : Context) (w : World) : option (Context * World * list T) :=
  let name := lockName c in
  match Lock name (leases w) with
  | inl err => Some (PopulateFailedResponse c err true, w, [])
  | inr held =>
      match next c (set_leases held w) with
      | Some (c', w', tr) => Some (c', set_leases (Unlock name (leases w')) w', tr)
      | None => None
      end
  end.

(** Calling a handler as a function; for the lock wrapper nothing is left
    to run between acquire and release. *)
Fixpoint call (s : AdminServer) (h : HandlerFunc) (c : Context) (w : World)
  : option (Context * World) :=
  match h with
  | AuthHandler => Some (AuthHandler_body s c w)
  | NodeQuotaHandler => NodeQuotaHandler_body s c w
  | Wrapper handler => Some (Wrapper_body handler c, w)
  | WCacheByRequestURI dur handle opts =>
      WCacheByRequestURI_body dur (call s handle) opts c w
  | WrapperWithLock =>
      match WrapperWithLock_body (T := HandlerFunc) (fun c w => Some (c, w, [])) c w with
      | Some (c', w', _) => Some (c', w')
      | None => None
      end
  | _ => Some (opaque h c, w)
  end.

(** gin's [c.Next ()]: the handlers run in order until one aborts.  The
    result carries the handlers that were entered, in order.  The lock
    wrapper calls [c.Next ()] itself, so the rest of the chain runs inside
    it. *)
Fixpoint Next (s : AdminServer) (handlers : list HandlerFunc) (c : Context) (w : World)
  : option (Context * World * list HandlerFunc) :=
  match handlers with
  | [] => Some (c, w, [])
  | h :: rest =>
      match h with
      | WrapperWithLock =>
          match WrapperWithLock_body (Next s rest) c w with
          | Some (c', w', tr) => Some (c', w', h :: tr)
          | None => None
          end
      | _ =>
          match call s h c w with
          | Some (c', w') =>
              if aborted c' then Some (c', w', [h])
              else
                match Next s rest c' w' with
                | Some (c'', w'', tr) => Some (c'', w'', h :: tr)
                | None => None
                end
          | None => None
          end
      end
  end.

End Pipeline.

(** ** The route table *)

(** The middlewares every route of the groups v1 and v2 starts with: those
    of the engine, then [AuthHandler], then the external handlers. *)
Definition group_prefix (s : AdminServer) : list HandlerFunc :=
  [RequestIDHandler; LoggerHandler; AuthHandler] ++ map External (ExternalHandlers s).

(** The stage of a handler in the order auth, lock, quota, terminal. *)
Definition stage (h : HandlerFunc) : option nat :=
  match h with
  | AuthHandler => Some 0
  | WrapperWithLock => Some 1
  | NodeQuotaHandler => Some 2
  | Wrapper _ | WCacheByRequestURI _ _ _ => Some 3
  | _ => None
  end.

Definition stages (l : list HandlerFunc) : list nat := omap stage l.

Fixpoint increasing (l : list nat) : bool :=
  match l with
  | a :: (b :: _) as l' => Nat.ltb a b && increasing l'
  | _ => true
  end.

Definition has_lock (l : list HandlerFunc) : bool := existsb is_lock l.
Definition has_quota (l : list HandlerFunc) : bool := existsb is_quota l.
Definition has_auth (l : list HandlerFunc) : bool := existsb is_auth l.

Definition route_is (m p : string) (r : string * string) : bool :=
  String.eqb m (fst r) && String.eqb p (snd r).

(** The routes that take the lock. *)
Definition lock_routes : list (string * string) :=
  [ ("PUT", "/v1/configs/:name"); ("PUT", "/v1/certificates/:name");
    ("PUT", "/v1/nodes/:name"); ("POST", "/v1/nodes");
    ("PUT", "/v1/apps/:name"); ("POST", "/v1/apps") ].

(** The routes that create a resource of the six kinds. *)
Definition creation_routes : list (string * string) :=
  [ ("POST", "/v1/configs"); ("POST", "/v1/registries"); ("POST", "/v1/certificates");
    ("POST", "/v1/secrets"); ("POST", "/v1/nodes"); ("POST", "/v1/apps") ].

Definition versioned (p : string) : bool :=
  String.prefix "/v1/" p || String.prefix "/v2/" p.

(** What holds of the handlers a route of v1 or v2 adds after the prefix of
    its group. *)
Definition own_handlers_ok (m p : string) (hs : list HandlerFunc) : bool :=
  versioned p
  && negb (has_auth hs) && negb (existsb is_external hs)
  && increasing (0 :: stages hs)
  && match last hs with Some h => is_terminal h | None => false end
  && Bool.eqb (has_lock hs) (existsb (route_is m p) lock_routes)
  && Bool.eqb (has_quota hs) (route_is m p ("POST", "/v1/nodes"))
  && (negb (has_quota hs)
      || match hs with
         | [WrapperWithLock; NodeQuotaHandler; Wrapper handler] =>
             String.eqb handler "CreateNode"
         | _ => false
         end).

Definition api_route (s : AdminServer) (r : RouteInfo) : Prop :=
  exists hs, chain r = group_prefix s ++ hs
             /\ own_handlers_ok (Method r) (Path r) hs = true.

Definition health_route : RouteInfo :=
  {| Method := "GET"; Path := "/health"; chain := [Health] |}.

(** No external handler, lock, quota check or terminal handler comes before
    the first [AuthHandler] of the list. *)
Definition needs_auth (h : HandlerFunc) : bool :=
  is_external h || is_lock h || is_quota h || is_terminal h.

Fixpoint auth_guarded (l : list HandlerFunc) : bool :=
  match l with
  | [] => true
  | h :: l' => if is_auth h then true else negb (needs_auth h) && auth_guarded l'
  end.

Definition route_key (r : RouteInfo) : string * string := (Method r, Path r).

Definition registered (rs : list RouteInfo) (mp : string * string) : bool :=
  existsb (fun r => route_is (Method r) (Path r) mp) rs.


(** ** What the claims speak of *)

(** The routes on which the specification places the lock. *)
Definition spec_lock_routes : list (string * string) :=
  [ ("PUT", "/v1/configs/:name"); ("PUT", "/v1/nodes/:name");
    ("PUT", "/v1/apps/:name"); ("POST", "/v1/apps") ].

(** The lock wrapper is on exactly the routes [routes]: a registered route
    takes the lock if and only if it is one of them, and each of them is
    registered. *)
Definition lock_exactly_on (routes : list (string * string)) (rs : list RouteInfo) : Prop :=
  (forall r, In r rs -> (has_lock (chain r) = true <-> In (route_key r) routes))
  /\ (forall mp, In mp routes -> exists r, In r rs /\ route_key r = mp).

(** In a chain, the quota check comes before the terminal handler. *)
Definition quota_before_terminal (l : list HandlerFunc) : Prop :=
  exists pre post,
    l = pre ++ NodeQuotaHandler :: post
    /\ existsb is_terminal pre = false
    /\ existsb is_terminal post = true.

(** Every route of [routes] is registered and checks the quota before its
    terminal handler. *)
Definition quota_guards (routes : list (string * string)) (rs : list RouteInfo) : Prop :=
  forall mp, In mp routes ->
    exists r, In r rs /\ route_key r = mp /\ quota_before_terminal (chain r).

(** The log entries of the two rejecting middlewares. *)
Definition auth_failure_log (c : Context) (err : error) : LogEntry :=
  {| log_msg := "request authenticate failed";
     log_fields :=
       [ ("trace", LStr (GetString "trace" c));
         ("namespace", LStr (GetNamespace c));
         ("authorization", LStr (Header_Get "Authorization" c));
         ("error", LErr err) ] |}.

Definition quota_failure_log (c : Context) (err : error) : LogEntry :=
  {| log_msg := "quota out of limit";
     log_fields :=
       [ ("trace", LStr (GetString "trace" c));
         ("namespace", LStr (GetNamespace c));
         ("error", LErr err) ] |}.

(** The key under which a cache wrapper stores the response to a request. *)
Definition cacheKeyOf (h : HandlerFunc) (c : Context) : option string :=
  match h with
  | WCacheByRequestURI _ _ opts => Some (cacheKey opts c)
  | _ => None
  end.

(** No header but Content-Type. *)
Definition only_Content_Type (hdr : gmap string string) : Prop :=
  forall k v, hdr !! k = Some v -> k = "Content-Type".

Definition store_headers_ok (w : World) : Prop :=
  forall k e, APICache w !! k = Some e -> only_Content_Type (headers e).

(** The time-to-live the claim on the cache duration states: the configured
    duration when it is strictly positive, two seconds otherwise. *)
Definition configured_ttl (s : AdminServer) : Duration :=
  if (CacheDuration (AdminServer_ (cfg s)) >? 0)%Z
  then CacheDuration (AdminServer_ (cfg s))
  else (2 * Second)%Z.

(** The quota check of [NodeQuotaHandler] with the collector handed over
    explicitly instead of read from the package. *)
Definition quota_check_with (CheckQuota : string -> option QuotaCollector -> option error)
    (collector : option QuotaCollector) (s : AdminServer) (c : Context) (w : World)
  : option (Context * World) :=
  match api s with
  | None => None
  | Some _ =>
    match CheckQuota (GetNamespace c) collector with
    | Some err =>
        Some (PopulateFailedResponse c err true,
              log_Error "quota out of limit" (log_fields (quota_failure_log c err)) w)
    | None => Some (c, w)
    end
  end.

(** ** Collaborators and a server to compute with *)

Module Demo.

(** The credential is the tenant's name; a request without one is refused. *)
Definition Authenticate (r : Request) (keys : gmap string string)
  : gmap string string * option error :=
  match req_Header r !! "Authorization" with
  | Some ns => (<["namespace" := ns]> keys, None)
  | None => (keys, Some {| err_code := "ErrUnauthorized"; err_message := "no credential" |})
  end.

(** At most ten nodes per namespace; a missing or failing collector fails
    the check. *)
Definition CheckQuota (ns : string) (collector : option QuotaCollector) : option error :=
  match collector with
  | None => Some {| err_code := "ErrQuota"; err_message := "no collector" |}
  | Some f =>
      match f ns with
      | inl e => Some e
      | inr counts =>
          if forallb (fun kv => (snd kv + 1 <=? 10)%Z) counts then None
          else Some {| err_code := "ErrQuota"; err_message := "quota exceeded" |}
      end
  end.

Definition Lock (name : string) (held : gset string) : error + gset string :=
  if decide (name ∈ held)
  then inl {| err_code := "ErrLock"; err_message := "resource is locked" |}
  else inr ({[name]} ∪ held).

Definition Unlock (name : string) (held : gset string) : gset string :=
  held ∖ {[name]}.

Definition api_method (m : string) (c : Context) : error + string :=
  inr ("result of " +:+ m).

Definition opaque (h : HandlerFunc) (c : Context) : Context := c.

Definition NewService (config : CloudConfig) : option error := None.

Definition full_collector : QuotaCollector := fun _ => inr [("node", 10%Z)].
Definition small_collector : QuotaCollector := fun _ => inr [("node", 3%Z)].

Definition api_full : API := {| NodeNumberCollector := Some full_collector |}.
Definition api_small : API := {| NodeNumberCollector := Some small_collector |}.

Definition config (enable : bool) : CloudConfig :=
  {| AdminServer_ := {| CacheEnable := enable; CacheDuration := 0%Z |};
     Plugin := {| Functions := ["f"]; Objects := [] |} |}.

Definition server (enable : bool) (a : API) : AdminServer :=
  {| ExternalHandlers := ["x"]; cfg := config enable; api := Some a;
     router := gin_New |}.

(** The routes the server registers. *)
Definition routes : list RouteInfo :=
  match InitRoute (server true api_full) Package_init with
  | Some (s, _) => trees (router s)
  | None => []
  end.

Definition request (m p : string) (credential : option string) : Context :=
  {| Request_ := {| req_Method := m; req_Path := p;
                    req_Query := [("b", "2"); ("a", "1")];
                    req_Header := match credential with
                                  | Some v => {["Authorization" := v]}
                                  | None => ∅
                                  end |};
     Keys := {["trace" := "t-1"]};
     aborted := false;
     Writer_Header := {["X-Request-Id" := "t-1"]};
     Writer_Body := None |}.

(** A request whose tenant is already resolved. *)
Definition request_of (ns p : string) : Context :=
  set_Keys (<["namespace" := ns]> {["trace" := "t-1"]}) (request "GET" p (Some ns)).

Definition world (p : Package) : World :=
  {| pkg := p; logs := []; APICache := ∅; cache_ops := []; leases := ∅; now := 100%Z |}.

Definition run := Next Authenticate CheckQuota Lock Unlock api_method opaque.

Definition run1 := call Authenticate CheckQuota Lock Unlock api_method opaque.

Definition create_node_chain : list HandlerFunc :=
  [RequestIDHandler; LoggerHandler; AuthHandler; External "x";
   WrapperWithLock; NodeQuotaHandler; Wrapper "CreateNode"].

(** What a run shows from outside: the response, the handlers entered, the
    log messages. *)
Definition observe (r : option (Context * World * list HandlerFunc))
  : option (option Envelope * list HandlerFunc * list string) :=
  match r with
  | Some (c, w, tr) => Some (Writer_Body c, tr, map log_msg (logs w))
  | None => None
  end.

End Demo.

(** ** More of the route table *)

(** Whether function sources and object sources are configured: the two
    conditions of [InitRoute]. *)
Definition plugin_flags (config : CloudConfig) : bool * bool :=
  (negb (length (Functions (Plugin config)) =? 0)%nat,
   negb (length (Objects (Plugin config)) =? 0)%nat).

(** A server on a fresh router whose configuration has the given flags and
    nothing else. *)
Definition flag_server (flags : bool * bool) : AdminServer :=
  {| ExternalHandlers := [];
     cfg := {| AdminServer_ := {| CacheEnable := false; CacheDuration := 0%Z |};
               Plugin := {| Functions := if fst flags then ["-"] else [];
                            Objects := if snd flags then ["-"] else [] |} |};
     api := Some {| NodeNumberCollector := None |};
     router := gin_New |}.

(** The method and path of every route [InitRoute] registers, in order. *)
Definition route_keys (s : AdminServer) (p : Package) : list (string * string) :=
  match InitRoute s p with
  | Some (s', _) => map route_key (trees (router s'))
  | None => []
  end.

Fixpoint nodup_keys (l : list (string * string)) : bool :=
  match l with
  | [] => true
  | x :: l' => negb (existsb (route_is (fst x) (snd x)) l') && nodup_keys l'
  end.

(** The routes inside [if len(s.cfg.Plugin.Functions) != 0]. *)
Definition function_source_routes : list (string * string) :=
  [ ("GET", "/v1/functions/:source/functions");
    ("GET", "/v1/functions/:source/functions/:name/versions");
    ("POST", "/v1/functions/:source/functions/:name/versions/:version") ].

(** The routes inside the two [if len(s.cfg.Plugin.Objects) != 0]. *)
Definition object_source_routes : list (string * string) :=
  [ ("GET", "/v1/objects/:source/buckets");
    ("GET", "/v1/objects/:source/buckets/:bucket/objects");
    ("GET", "/v2/objects/:source/buckets");
    ("GET", "/v2/objects/:source/buckets/:bucket/objects");
    ("GET", "/v2/objects/:source/buckets/:bucket/object");
    ("GET", "/v2/objects/:source/buckets/:bucket/object/put") ].

(** The source listings, registered outside the conditions. *)
Definition source_listing_routes : list (string * string) :=
  [ ("GET", "/v1/functions"); ("GET", "/v1/objects"); ("GET", "/v2/objects") ].

(** The forms the handlers of an API route take after the prefix of its
    group, as [InitRoute] writes them: a cached or plain terminal handler,
    alone or behind a validator, the lock, or the lock and the quota check. *)
Inductive OwnHandlers (config : CloudConfig) : string -> list HandlerFunc -> Prop :=
  | own_cached (s : AdminServer) (h : string) :
      cfg s = config -> OwnHandlers config "GET" [WrapperCache s h]
  | own_plain (m h : string) :
      OwnHandlers config m [Wrapper h]
  | own_locked (h : string) :
      OwnHandlers config "PUT" [WrapperWithLock; Wrapper h]
  | own_delete_validated (h : string) :
      OwnHandlers config "DELETE"
        [WrapperRaw "ValidateResourceForDeleting" true; Wrapper h]
  | own_create_validated (h : string) :
      OwnHandlers config "POST"
        [WrapperRaw "ValidateResourceForCreating" true; Wrapper h]
  | own_create_validated_locked (h : string) :
      OwnHandlers config "POST"
        [WrapperRaw "ValidateResourceForCreating" true; WrapperWithLock; Wrapper h]
  | own_create_checked (h : string) :
      OwnHandlers config "POST" [WrapperWithLock; NodeQuotaHandler; Wrapper h].

Definition shaped_route (s : AdminServer) (r : RouteInfo) : Prop :=
  exists hs, chain r = group_prefix s ++ hs /\ OwnHandlers (cfg s) (Method r) hs.

Definition is_cache (h : HandlerFunc) : bool :=
  match h with WCacheByRequestURI _ _ _ => true | _ => false end.

Definition is_validator (h : HandlerFunc) : bool :=
  match h with WrapperRaw _ _ => true | _ => false end.

(** ** The handlers written inside [InitRoute] *)

(** A Go slice that may be nil. *)
Definition slice (A : Type) : Type := option (list A).

(** [append(sl, x)]: appending to a nil slice allocates. *)
Definition go_append {A : Type} (sl : slice A) (x : A) : slice A :=
  Some (default [] sl ++ [x]).

(** The elements of a slice; a nil slice has none. *)
Definition elements_of {A : Type} (sl : slice A) : list A := default [] sl.

(** The value returned under the key "sysconfigs". *)
Record SysconfigList : Type := {
  sysconfigs : slice (gmap string string)
}.

(** One element of [runtimesView]. *)
Definition runtime_entry (k v : string) : gmap string string :=
  <["type" := "baetyl-function-runtime"]> (<["key" := k]> {["value" := v]}).

(** The key and value an element of the view carries. *)
Definition entry_key_value (e : gmap string string) : string * string :=
  (default "" (e !! "key"), default "" (e !! "value")).

Section Sysconfig.

(** [GetLatestModule name] is [s.api.Module.GetLatestModule], giving the
    version of the module found.  [ListRuntimes] is the result of
    [s.api.Func.ListRuntimes ()].  [range m] is the order in which Go's
    [for k, v := range m] visits the entries of a map, which the language
    leaves open.  [Trace] is [errors.Trace]. *)
Variable GetLatestModule : string -> error + string.
Variable ListRuntimes : error + gmap string string.
Variable range : gmap string string -> list (string * string).
Variable Trace : error -> error.

(** The handler of GET /v1/sysconfig/baetyl_version/latest. *)
Definition sysconfig_baetyl_version (c : Context) : error + gmap string string :=
  match GetLatestModule "baetyl" with
  | inl err => inl err
  | inr version =>
      inr (<["type" := "baetyl_version"]>
             (<["key" := "latest"]> {["value" := version]}))
  end.

(** The handler of GET /v1/sysconfig/baetyl-function-runtime. *)
Definition sysconfig_function_runtime (c : Context) : error + SysconfigList :=
  match ListRuntimes with
  | inl err => inl (Trace err)
  | inr runtimes =>
      let runtimesView : slice (gmap string string) := None in
      let runtimesView :=
        fold_left (fun view kv => go_append view (runtime_entry (fst kv) (snd kv)))
                  (range runtimes) runtimesView in
      inr {| sysconfigs := runtimesView |}
  end.

End Sysconfig.

(** ** Facts about chains *)

Lemma auth_guarded_app_l (l1 l2 : list HandlerFunc) :
  auth_guarded (l1 ++ l2) = true -> auth_guarded l1 = true.
Proof.
  induction l1 as [|h l1 IH]; simpl; [reflexivity|].
  destruct (is_auth h); [reflexivity|].
  destruct (needs_auth h); simpl; [discriminate | exact IH].
Qed.

Lemma existsb_map_External (f : HandlerFunc -> bool) (ext : list string) :
  (forall n, f (External n) = false) -> existsb f (map External ext) = false.
Proof.
  intros Hf. induction ext as [|x ext IH]; simpl; [reflexivity|].
  rewrite Hf. exact IH.
Qed.

Lemma stages_map_External (ext : list string) : stages (map External ext) = [].
Proof. induction ext as [|x ext IH]; [reflexivity | exact IH]. Qed.

Lemma stages_app (l1 l2 : list HandlerFunc) : stages (l1 ++ l2) = stages l1 ++ stages l2.
Proof. unfold stages. apply omap_app. Qed.

Lemma stages_group_prefix (s : AdminServer) (hs : list HandlerFunc) :
  stages (group_prefix s ++ hs) = 0 :: stages hs.
Proof.
  unfold group_prefix. rewrite !stages_app, stages_map_External. reflexivity.
Qed.

Lemma has_auth_group_prefix (s : AdminServer) (hs : list HandlerFunc) :
  has_auth (group_prefix s ++ hs) = true.
Proof. reflexivity. Qed.

Lemma has_lock_group_prefix (s : AdminServer) (hs : list HandlerFunc) :
  has_lock (group_prefix s ++ hs) = has_lock hs.
Proof.
  unfold has_lock, group_prefix. rewrite !existsb_app.
  rewrite existsb_map_External by reflexivity. reflexivity.
Qed.

Lemma has_quota_group_prefix (s : AdminServer) (hs : list HandlerFunc) :
  has_quota (group_prefix s ++ hs) = has_quota hs.
Proof.
  unfold has_quota, group_prefix. rewrite !existsb_app.
  rewrite existsb_map_External by reflexivity. reflexivity.
Qed.

(** The conjuncts of [own_handlers_ok] that the theorems use. *)
Lemma own_handlers_ok_inv (m p : string) (hs : list HandlerFunc) :
  own_handlers_ok m p hs = true ->
  versioned p = true
  /\ has_auth hs = false
  /\ increasing (0 :: stages hs) = true
  /\ has_lock hs = existsb (route_is m p) lock_routes
  /\ has_quota hs = route_is m p ("POST", "/v1/nodes")
  /\ (has_quota hs = true ->
      hs = [WrapperWithLock; NodeQuotaHandler; Wrapper "CreateNode"]).
Proof.
  unfold own_handlers_ok. rewrite !andb_true_iff.
  intros [[[[[[[Hv Ha] _] Hi] _] Hl] Hq] Hn].
  apply Bool.eqb_prop in Hl, Hq. apply negb_true_iff in Ha.
  repeat split; try assumption.
  intros Hh. rewrite Hh in Hn. simpl in Hn.
  destruct hs as [|[] [|[] [|[] [|]]]]; try discriminate.
  apply String.eqb_eq in Hn. subst. reflexivity.
Qed.

Lemma route_is_In (m p : string) (l : list (string * string)) :
  existsb (route_is m p) l = true <-> In (m, p) l.
Proof.
  rewrite existsb_exists. split.
  - intros [[m' p'] [Hin H]]. unfold route_is in H. simpl in H.
    apply andb_true_iff in H as [H1 H2].
    apply String.eqb_eq in H1, H2. subst. exact Hin.
  - intros Hin. exists (m, p). split; [exact Hin|].
    unfold route_is. simpl. rewrite !String.eqb_refl. reflexivity.
Qed.

Lemma registered_In (rs : list RouteInfo) (mp : string * string) :
  registered rs mp = true -> exists r, In r rs /\ route_key r = mp.
Proof.
  unfold registered. rewrite existsb_exists. intros [r [Hin H]].
  exists r. split; [exact Hin|]. unfold route_is in H.
  apply andb_true_iff in H as [H1 H2]. apply String.eqb_eq in H1, H2.
  destruct mp as [m p]. simpl in *. subst. reflexivity.
Qed.

Lemma quota_not_before_terminal (l : list HandlerFunc) :
  has_quota l = false -> ~ quota_before_terminal l.
Proof.
  intros H (pre & post & -> & _ & _). unfold has_quota in H.
  rewrite existsb_app in H. simpl in H. rewrite orb_true_r in H. discriminate.
Qed.

Lemma forallb_In {A : Type} (f : A -> bool) (l : list A) (x : A) :
  forallb f l = true -> In x l -> f x = true.
Proof. intros H Hin. exact (proj1 (List.forallb_forall f l) H x Hin). Qed.

Lemma api_route_of (s : AdminServer) (rs : list RouteInfo) (r : RouteInfo) :
  Forall (api_route s) rs -> In r rs -> api_route s r.
Proof. intros H Hin. exact (proj1 (List.Forall_forall _ _) H r Hin). Qed.

(** ** The route table of [InitRoute] *)

Lemma api_route_intro (s : AdminServer) (m p : string) (pre hs : list HandlerFunc) :
  pre = group_prefix s -> own_handlers_ok m p hs = true ->
  api_route s {| Method := m; Path := p; chain := pre ++ hs |}.
Proof. intros -> H. exists hs. split; [reflexivity | exact H]. Qed.

(** On a fresh router and with an API set, [InitRoute] succeeds; it
    registers the health route first, and every other route starts with the
    prefix of its group and passes [own_handlers_ok]. *)
Lemma InitRoute_routes (s : AdminServer) (a : API) (p : Package) :
  router s = gin_New -> api s = Some a ->
  exists e,
    InitRoute s p = Some (set_router s e, {| NodeCollector := NodeNumberCollector a |})
    /\ allNoRoute e = [RequestIDHandler; LoggerHandler; NoRouteHandler]
    /\ allNoMethod e = [RequestIDHandler; LoggerHandler; NoMethodHandler]
    /\ root e = {| Handlers := [RequestIDHandler; LoggerHandler]; basePath := "/" |}
    /\ exists rs, trees e = health_route :: rs
        /\ Forall (api_route s) rs
        /\ forallb (registered rs) (lock_routes ++ creation_routes) = true.
Proof.
  destruct s as [ext [[ce cd] [fs os]] ap rt]; simpl; intros -> ->.
  eexists; split; [reflexivity|].
  destruct fs, os;
    lazy -[app map api_route group_prefix own_handlers_ok WrapperCache registered forallb];
    (split; [reflexivity|split;[reflexivity|split;[reflexivity|]]]).
  all: eexists; split; [reflexivity|].
  all: split; [| vm_compute; reflexivity].
  all: repeat constructor.
  all: apply api_route_intro;
    [ simpl; rewrite ?app_nil_r; reflexivity | destruct ce; vm_compute; reflexivity ].
Qed.

Lemma InitRoute_Some (s s' : AdminServer) (p p' : Package) :
  InitRoute s p = Some (s', p') ->
  exists a, api s = Some a /\ api s' = Some a
            /\ p' = {| NodeCollector := NodeNumberCollector a |}.
Proof.
  unfold InitRoute. destruct (api s) as [a|] eqn:Ha; [|discriminate].
  intros H. injection H as <- <-. exists a.
  split; [reflexivity|]. split; [cbn [api set_router]; exact Ha | reflexivity].
Qed.

(** ** The cache key and the cached headers *)

Lemma WrapperCacheDuration_eq (s : AdminServer) (m : string) (dur : Duration) :
  WrapperCacheDuration s m dur = WCacheByRequestURI dur (Wrapper m) APICacheOptions.
Proof. reflexivity. Qed.

Lemma list_ascii_of_append (a b : string) :
  list_ascii_of_string (a +:+ b) = list_ascii_of_string a ++ list_ascii_of_string b.
Proof.
  induction a as [|ch a IH]; [reflexivity|].
  change (String ch a +:+ b) with (String ch (a +:+ b)).
  cbn [list_ascii_of_string]. rewrite IH. reflexivity.
Qed.

Lemma append_inv_tail (a b t : string) : a +:+ t = b +:+ t -> a = b.
Proof.
  intros H.
  apply (f_equal list_ascii_of_string) in H.
  rewrite !list_ascii_of_append in H.
  apply app_inv_tail in H.
  rewrite <- (string_of_list_ascii_of_string a),
          <- (string_of_list_ascii_of_string b), H.
  reflexivity.
Qed.

Lemma cacheKey_namespace (c1 c2 : Context) :
  req_Path (Request_ c1) = req_Path (Request_ c2) ->
  req_Query (Request_ c1) = req_Query (Request_ c2) ->
  cacheKey APICacheOptions c1 = cacheKey APICacheOptions c2 ->
  GetNamespace c1 = GetNamespace c2.
Proof.
  unfold cacheKey. intros -> -> H.
  do 4 apply String.app_inj in H.
  cbn [fold_right ginCtxKeys APICacheOptions] in H.
  unfold GetNamespace. exact (append_inv_tail _ _ _ H).
Qed.

Lemma cachedHeaders_lookup (hdr : gmap string string) (k : string) :
  cachedHeaders APICacheOptions hdr !! k =
    if decide (k = "Content-Type") then hdr !! k else None.
Proof.
  unfold cachedHeaders. simpl.
  destruct (decide (k = "Content-Type")) as [->|Hne].
  - destruct (hdr !! "Content-Type") as [v|] eqn:E.
    + apply map_lookup_filter_Some. split; [exact E|]. simpl. constructor.
    + apply map_lookup_filter_None. left. exact E.
  - apply map_lookup_filter_None. right. intros v _ Hin. simpl in Hin.
    apply list_elem_of_singleton in Hin. contradiction.
Qed.

Lemma replyWithCache_headers (e : CacheEntry) (c : Context) (k : string) :
  only_Content_Type (headers e) -> k <> "Content-Type" ->
  Writer_Header (replyWithCache e c) !! k = Writer_Header c !! k.
Proof.
  intros He Hk. unfold replyWithCache. simpl.
  assert (Hn : headers e !! k = None).
  { destruct (headers e !! k) as [v|] eqn:E; [|reflexivity].
    apply He in E. contradiction. }
  destruct (contentType e).
  - rewrite lookup_insert_ne by congruence. apply lookup_union_r. exact Hn.
  - apply lookup_union_r. exact Hn.
Qed.

(** ** Running chains *)

Section Facts.

Variable Authenticate : Request -> gmap string string -> gmap string string * option error.
Variable CheckQuota : string -> option QuotaCollector -> option error.
Variable Lock : string -> gset string -> error + gset string.
Variable Unlock : string -> gset string -> gset string.
Variable api_method : string -> Context -> error + string.
Variable opaque : HandlerFunc -> Context -> Context.
Variable NewAuthService : CloudConfig -> option error.
Variable NewLicenseService : CloudConfig -> option error.
Variable NewQuotaService : CloudConfig -> option error.

Local Abbreviation call' := (call Authenticate CheckQuota Lock Unlock api_method opaque).
Local Abbreviation Next' := (Next Authenticate CheckQuota Lock Unlock api_method opaque).
Local Abbreviation Wrapper_body' := (Wrapper_body api_method).
Local Abbreviation NewAdminServer' :=
  (NewAdminServer NewAuthService NewLicenseService NewQuotaService).

(** One step of [Next] on a handler other than the lock wrapper. *)
Lemma Next_cons (s : AdminServer) (h : HandlerFunc) (rest : list HandlerFunc)
    (c : Context) (w : World) :
  is_lock h = false ->
  Next' s (h :: rest) c w =
    match call' s h c w with
    | Some (c', w') =>
        if aborted c' then Some (c', w', [h])
        else match Next' s rest c' w' with
             | Some (c'', w'', tr) => Some (c'', w'', h :: tr)
             | None => None
             end
    | None => None
    end.
Proof. destruct h; intros Hl; try discriminate Hl; reflexivity. Qed.

(** One step of [Next] on the lock wrapper. *)
Lemma Next_lock (s : AdminServer) (rest : list HandlerFunc) (c : Context) (w : World) :
  Next' s (WrapperWithLock :: rest) c w =
    match Lock (lockName c) (leases w) with
    | inl err => Some (PopulateFailedResponse c err true, w, [WrapperWithLock])
    | inr held =>
        match Next' s rest c (set_leases held w) with
        | Some (c', w', tr) =>
            Some (c', set_leases (Unlock (lockName c) (leases w')) w',
                  WrapperWithLock :: tr)
        | None => None
        end
    end.
Proof.
  cbn [Next]. unfold WrapperWithLock_body.
  destruct (Lock _ _) as [err|held]; [reflexivity|].
  destruct (Next' s rest c _) as [[[c' w'] tr]|]; reflexivity.
Qed.

(** The handlers entered are an initial segment of the chain. *)
Lemma Next_trace_prefix (s : AdminServer) (hs : list HandlerFunc) :
  forall c w c' w' tr,
    Next' s hs c w = Some (c', w', tr) -> exists rest, hs = tr ++ rest.
Proof.
  induction hs as [|h hs IH]; intros c w c' w' tr H.
  - injection H as <- <- <-. exists []. reflexivity.
  - destruct (is_lock h) eqn:Hl.
    + destruct h; try discriminate Hl. rewrite Next_lock in H.
      destruct (Lock _ _) as [err|held].
      * injection H as <- <- <-. exists hs. reflexivity.
      * destruct (Next' s hs c _) as [[[c1 w1] tr1]|] eqn:E; [|discriminate].
        injection H as <- <- <-. apply IH in E as [rest ->].
        exists rest. reflexivity.
    + rewrite Next_cons in H by exact Hl.
      destruct (call' s h c w) as [[c1 w1]|]; [|discriminate].
      destruct (aborted c1).
      * injection H as <- <- <-. exists hs. reflexivity.
      * destruct (Next' s hs c1 w1) as [[[c2 w2] tr2]|] eqn:E; [|discriminate].
        injection H as <- <- <-. apply IH in E as [rest ->].
        exists rest. reflexivity.
Qed.

Lemma Next_auth_failure (s : AdminServer) (rest : list HandlerFunc)
    (c : Context) (w : World) (keys : gmap string string) (err : error) :
  Authenticate (Request_ c) (Keys c) = (keys, Some err) ->
  Next' s (AuthHandler :: rest) c w =
    Some (PopulateFailedResponse (set_Keys keys c)
            (common_Error ErrRequestAccessDenied err) true,
          log_Error "request authenticate failed"
            (log_fields (auth_failure_log (set_Keys keys c) err)) w,
          [AuthHandler]).
Proof.
  intros HA. rewrite Next_cons by reflexivity.
  cbn [call]. unfold AuthHandler_body. rewrite HA. reflexivity.
Qed.

Lemma Next_quota_failure (s : AdminServer) (a : API) (rest : list HandlerFunc)
    (c : Context) (w : World) (err : error) :
  api s = Some a ->
  CheckQuota (GetNamespace c) (NodeCollector (pkg w)) = Some err ->
  Next' s (NodeQuotaHandler :: rest) c w =
    Some (PopulateFailedResponse c err true,
          log_Error "quota out of limit" (log_fields (quota_failure_log c err)) w,
          [NodeQuotaHandler]).
Proof.
  intros Ha HQ. rewrite Next_cons by reflexivity.
  cbn [call]. unfold NodeQuotaHandler_body. rewrite Ha, HQ. reflexivity.
Qed.

Lemma Next_lock_failure (s : AdminServer) (rest : list HandlerFunc)
    (c : Context) (w : World) (err : error) :
  Lock (lockName c) (leases w) = inl err ->
  Next' s (WrapperWithLock :: rest) c w =
    Some (PopulateFailedResponse c err true, w, [WrapperWithLock]).
Proof. intros HL. rewrite Next_lock, HL. reflexivity. Qed.

(** The cache wrapper around [common.Wrapper m], case by case. *)
Lemma call_cache (s : AdminServer) (dur : Duration) (m : string)
    (opts : CacheOptions) (c : Context) (w : World) :
  call' s (WCacheByRequestURI dur (Wrapper m) opts) c w =
    let key := cacheKey opts c in
    let w1 := snd (cache_get key w) in
    match fresh_entry w (APICache w !! key) with
    | Some e => Some (replyWithCache e c, w1)
    | None =>
        let c' := Wrapper_body' m c in
        match (if succeeded c' then newCacheEntry opts dur w1 c' else None) with
        | Some e' => Some (c', cache_set key e' dur w1)
        | None => Some (c', w1)
        end
    end.
Proof. reflexivity. Qed.

(** No handler writes a package variable. *)
Lemma call_pkg (s : AdminServer) (h : HandlerFunc) :
  forall c w c' w', call' s h c w = Some (c', w') -> pkg w' = pkg w.
Proof.
  induction h as [| | | | | | | | | | |dur h IH opts]; intros c w c' w' H;
    cbn [call] in H; try (injection H as <- <-; reflexivity).
  - unfold AuthHandler_body in H.
    destruct (Authenticate _ _) as [keys [err|]]; injection H as <- <-; reflexivity.
  - unfold NodeQuotaHandler_body in H.
    destruct (api s); [|discriminate].
    destruct (CheckQuota _ _); injection H as <- <-; reflexivity.
  - unfold WrapperWithLock_body in H.
    destruct (Lock _ _); injection H as <- <-; reflexivity.
  - unfold WCacheByRequestURI_body, cache_get in H.
    destruct (fresh_entry _ _) as [e|].
    + injection H as <- <-. reflexivity.
    + destruct (call' s h c _) as [[c1 w1]|] eqn:E; [|discriminate].
      apply IH in E.
      destruct (if succeeded c1 then _ else None);
        injection H as <- <-; exact E.
Qed.

Lemma Next_pkg (s : AdminServer) (hs : list HandlerFunc) :
  forall c w c' w' tr, Next' s hs c w = Some (c', w', tr) -> pkg w' = pkg w.
Proof.
  induction hs as [|h hs IH]; intros c w c' w' tr H.
  - injection H as <- <- <-. reflexivity.
  - destruct (is_lock h) eqn:Hl.
    + destruct h; try discriminate Hl. rewrite Next_lock in H.
      destruct (Lock _ _) as [err|held].
      * injection H as <- <- <-. reflexivity.
      * destruct (Next' s hs c _) as [[[c1 w1] tr1]|] eqn:E; [|discriminate].
        injection H as <- <- <-. apply IH in E. exact E.
    + rewrite Next_cons in H by exact Hl.
      destruct (call' s h c w) as [[c1 w1]|] eqn:Ec; [|discriminate].
      apply call_pkg in Ec.
      destruct (aborted c1).
      * injection H as <- <- <-. exact Ec.
      * destruct (Next' s hs c1 w1) as [[[c2 w2] tr2]|] eqn:E; [|discriminate].
        injection H as <- <- <-. apply IH in E. congruence.
Qed.

(** ** The claims *)

(** C1, as amended.  The quota admission check guards the node-creation
    route POST /v1/nodes and no other route: there [NodeQuotaHandler] comes
    before the creation handler, and when the check fails nothing after it
    runs, the chain is aborted with the failure envelope of the check's
    error, and namespace, trace id and the error are logged. *)
Theorem NodeQuotaHandler_guards_node_creation (s : AdminServer) (a : API) (p : Package) :
  router s = gin_New -> api s = Some a ->
  exists s' p',
    InitRoute s p = Some (s', p')
    /\ quota_guards [("POST", "/v1/nodes")] (trees (router s'))
    /\ (forall r, In r (trees (router s')) -> has_quota (chain r) = true ->
          route_key r = ("POST", "/v1/nodes"))
    /\ (forall rest c w err,
          CheckQuota (GetNamespace c) (NodeCollector (pkg w)) = Some err ->
          exists c' w',
            Next' s' (NodeQuotaHandler :: rest) c w = Some (c', w', [NodeQuotaHandler])
            /\ Writer_Body c' =
                 Some (Failure (err_code err) (err_message err) (GetString "trace" c))
            /\ aborted c' = true
            /\ logs w' = logs w ++ [quota_failure_log c err]).
Proof.
  intros Hr Ha.
  destruct (InitRoute_routes s a p Hr Ha)
    as (e & HI & _ & _ & _ & rs & Ht & Hall & Hreg).
  eexists (set_router s e), _. split; [exact HI|]. simpl router. rewrite Ht.
  split; [|split].
  - intros mp [<-|[]].
    destruct (registered_In rs ("POST", "/v1/nodes")) as (r & Hin & Hk).
    { apply (forallb_In _ _ _ Hreg). simpl. tauto. }
    exists r. split; [right; exact Hin|]. split; [exact Hk|].
    destruct (api_route_of s rs r Hall Hin) as (hs & Hc & Hok).
    apply own_handlers_ok_inv in Hok as (_ & _ & _ & _ & Hq & Hhs).
    injection Hk as Hm Hp. rewrite Hm, Hp in Hq.
    specialize (Hhs Hq). subst hs.
    exists (group_prefix s ++ [WrapperWithLock]), [Wrapper "CreateNode"].
    split; [rewrite Hc, <- app_assoc; reflexivity|]. split; [|reflexivity].
    unfold group_prefix. rewrite !existsb_app.
    rewrite existsb_map_External by reflexivity. reflexivity.
  - intros r [<-|Hin] Hq; [discriminate Hq|].
    destruct (api_route_of s rs r Hall Hin) as (hs & Hc & Hok).
    apply own_handlers_ok_inv in Hok as (_ & _ & _ & _ & Hq' & _).
    rewrite Hc, has_quota_group_prefix, Hq' in Hq.
    unfold route_is in Hq. simpl in Hq. apply andb_true_iff in Hq as [H1 H2].
    apply String.eqb_eq in H1, H2. unfold route_key. congruence.
  - intros rest c w err HQ. eexists _, _. split.
    + apply (Next_quota_failure (set_router s e) a); [exact Ha | exact HQ].
    + repeat split; reflexivity.
Qed.

(** C3.  On every route registered under the groups v1 and v2,
    [AuthHandler] is the first middleware the group installs, right after
    those of the engine, so that no external handler, lock, quota check or
    terminal handler is entered before it; the health route and the
    not-found and method-not-allowed chains are the only ones without it. *)
Theorem AuthHandler_first_in_v1_v2 (s : AdminServer) (a : API) (p : Package) :
  router s = gin_New -> api s = Some a ->
  exists s' p',
    InitRoute s p = Some (s', p')
    /\ Handlers (GetV1RouterGroup s') =
         Handlers (root (router s')) ++ AuthHandler :: map External (ExternalHandlers s')
    /\ Handlers (GetV2RouterGroup s') =
         Handlers (root (router s')) ++ AuthHandler :: map External (ExternalHandlers s')
    /\ has_auth (allNoRoute (router s')) = false
    /\ has_auth (allNoMethod (router s')) = false
    /\ forall r, In r (trees (router s')) ->
         (has_auth (chain r) = false <-> r = health_route)
         /\ (r <> health_route ->
               versioned (Path r) = true
               /\ exists hs,
                    chain r = Handlers (GetV1RouterGroup s') ++ hs
                    /\ has_auth hs = false)
         /\ auth_guarded (chain r) = true
         /\ forall c w c' w' tr,
              Next' s' (chain r) c w = Some (c', w', tr) -> auth_guarded tr = true.
Proof.
  intros Hr Ha.
  destruct (InitRoute_routes s a p Hr Ha)
    as (e & HI & Hnr & Hnm & Hroot & rs & Ht & Hall & _).
  eexists (set_router s e), _. split; [exact HI|].
  assert (HG : Handlers (GetV1RouterGroup (set_router s e)) = group_prefix s).
  { unfold GetV1RouterGroup, Group, Use, combineHandlers. simpl.
    rewrite Hroot. reflexivity. }
  split; [rewrite HG; simpl; rewrite Hroot; reflexivity|].
  split.
  { unfold GetV2RouterGroup, Group, Use, combineHandlers. simpl.
    rewrite Hroot. reflexivity. }
  simpl router. rewrite Hnr, Hnm, Ht.
  split; [reflexivity|]. split; [reflexivity|].
  intros r Hin.
  assert (Hcases : r = health_route \/
            (r <> health_route /\ exists hs, chain r = group_prefix s ++ hs
               /\ versioned (Path r) = true /\ has_auth hs = false)).
  { destruct Hin as [<-|Hin]; [left; reflexivity|]. right.
    destruct (api_route_of s rs r Hall Hin) as (hs & Hc & Hok).
    apply own_handlers_ok_inv in Hok as (Hv & Hna & _).
    split.
    - intros ->. discriminate Hv.
    - exists hs. repeat split; assumption. }
  assert (Hg : auth_guarded (chain r) = true).
  { destruct Hcases as [->|(_ & hs & -> & _)]; reflexivity. }
  split; [|split; [|split]].
  - destruct Hcases as [->|(Hne & hs & Hc & _)].
    + split; reflexivity.
    + rewrite Hc, has_auth_group_prefix. split; [discriminate | contradiction].
  - intros Hne. destruct Hcases as [->|(_ & hs & Hc & Hv & Hna)]; [contradiction|].
    split; [exact Hv|]. exists hs. rewrite HG. split; assumption.
  - exact Hg.
  - intros c w c' w' tr HN.
    destruct (Next_trace_prefix _ _ _ _ _ _ _ HN) as [rest Hrest].
    rewrite Hrest in Hg. exact (auth_guarded_app_l _ _ Hg).
Qed.

(** C4.  When authentication fails, the chain stops at [AuthHandler]: the
    access-denied failure envelope is emitted, the chain is aborted, no
    later middleware or handler is entered (no lease taken, no cache
    access), and the trace id, the namespace, the raw Authorization header
    and the error are logged. *)
Theorem AuthHandler_failure_aborts (s : AdminServer) (rest : list HandlerFunc)
    (c : Context) (w : World) (keys : gmap string string) (err : error) :
  Authenticate (Request_ c) (Keys c) = (keys, Some err) ->
  exists c' w',
    Next' s (AuthHandler :: rest) c w = Some (c', w', [AuthHandler])
    /\ Writer_Body c' =
         Some (Failure ErrRequestAccessDenied (err_message err)
                 (GetString "trace" (set_Keys keys c)))
    /\ aborted c' = true
    /\ logs w' = logs w ++ [auth_failure_log (set_Keys keys c) err]
    /\ Header_Get "Authorization" (set_Keys keys c) = Header_Get "Authorization" c
    /\ leases w' = leases w
    /\ APICache w' = APICache w
    /\ cache_ops w' = cache_ops w.
Proof.
  intros HA. eexists _, _. split; [apply Next_auth_failure; exact HA|].
  repeat split; reflexivity.
Qed.

(** C5, as amended.  The lock wrapper is on exactly six routes: update
    config, update certificate, update node, create node, update
    application and create application. *)
Theorem lock_routes_exact (s : AdminServer) (a : API) (p : Package) :
  router s = gin_New -> api s = Some a ->
  exists s' p',
    InitRoute s p = Some (s', p')
    /\ lock_exactly_on lock_routes (trees (router s')).
Proof.
  intros Hr Ha.
  destruct (InitRoute_routes s a p Hr Ha)
    as (e & HI & _ & _ & _ & rs & Ht & Hall & Hreg).
  eexists (set_router s e), _. split; [exact HI|]. simpl router. rewrite Ht.
  split.
  - intros r [<-|Hin].
    + split; [discriminate|]. cbv. intuition discriminate.
    + destruct (api_route_of s rs r Hall Hin) as (hs & Hc & Hok).
      apply own_handlers_ok_inv in Hok as (_ & _ & _ & Hl & _).
      rewrite Hc, has_lock_group_prefix, Hl. apply route_is_In.
  - intros mp Hin.
    destruct (registered_In rs mp) as (r & Hr' & Hk).
    { apply (forallb_In _ _ _ Hreg). apply in_or_app. left. exact Hin. }
    exists r. split; [right; exact Hr' | exact Hk].
Qed.

(** C6.  On every route the stages present occur in the order auth, lock,
    quota, terminal handler; a run enters the handlers in the order of the
    chain; and a failing authentication, lock acquisition or quota check
    aborts the chain, so that nothing after it is entered. *)
Theorem stages_in_fixed_order (s : AdminServer) (a : API) (p : Package) :
  router s = gin_New -> api s = Some a ->
  exists s' p',
    InitRoute s p = Some (s', p')
    /\ (forall r, In r (trees (router s')) ->
          increasing (stages (chain r)) = true
          /\ forall c w c' w' tr,
               Next' s' (chain r) c w = Some (c', w', tr) ->
               exists rest, chain r = tr ++ rest)
    /\ (forall rest c w keys err,
          Authenticate (Request_ c) (Keys c) = (keys, Some err) ->
          exists c' w', Next' s' (AuthHandler :: rest) c w = Some (c', w', [AuthHandler])
                        /\ aborted c' = true)
    /\ (forall rest c w err,
          Lock (lockName c) (leases w) = inl err ->
          exists c' w', Next' s' (WrapperWithLock :: rest) c w
                          = Some (c', w', [WrapperWithLock])
                        /\ aborted c' = true)
    /\ (forall rest c w err,
          CheckQuota (GetNamespace c) (NodeCollector (pkg w)) = Some err ->
          exists c' w', Next' s' (NodeQuotaHandler :: rest) c w
                          = Some (c', w', [NodeQuotaHandler])
                        /\ aborted c' = true).
Proof.
  intros Hr Ha.
  destruct (InitRoute_routes s a p Hr Ha)
    as (e & HI & _ & _ & _ & rs & Ht & Hall & _).
  eexists (set_router s e), _. split; [exact HI|]. simpl router. rewrite Ht.
  split; [|split; [|split]].
  - intros r Hin. split.
    + destruct Hin as [<-|Hin]; [reflexivity|].
      destruct (api_route_of s rs r Hall Hin) as (hs & Hc & Hok).
      apply own_handlers_ok_inv in Hok as (_ & _ & Hi & _).
      rewrite Hc, stages_group_prefix. exact Hi.
    + intros c w c' w' tr HN.
      exact (Next_trace_prefix _ _ _ _ _ _ _ HN).
  - intros rest c w keys err HA. eexists _, _. split.
    + apply Next_auth_failure. exact HA.
    + reflexivity.
  - intros rest c w err HL. eexists _, _. split.
    + apply Next_lock_failure. exact HL.
    + reflexivity.
  - intros rest c w err HQ. eexists _, _. split.
    + apply (Next_quota_failure (set_router s e) a); [exact Ha | exact HQ].
    + reflexivity.
Qed.

(** C7.  With caching enabled, a response is stored with the configured
    cache duration when that is strictly positive and with the default of
    two seconds otherwise: every write the wrapper performs carries that
    time-to-live, and a successful response on a miss is written with it. *)
Theorem WrapperCache_ttl (s : AdminServer) (m : string) :
  CacheEnable (AdminServer_ (cfg s)) = true ->
  DefaultAPICacheDuration = (2 * Second)%Z
  /\ WrapperCache s m = WrapperCacheDuration s m (configured_ttl s)
  /\ forall c w,
       let key := cacheKey APICacheOptions c in
       exists c' w',
         call' s (WrapperCache s m) c w = Some (c', w')
         /\ (forall k ttl, In (CacheSet k ttl) (cache_ops w') ->
               In (CacheSet k ttl) (cache_ops w) \/ (k = key /\ ttl = configured_ttl s))
         /\ (fresh_entry w (APICache w !! key) = None ->
             succeeded (Wrapper_body' m c) = true ->
             In (CacheSet key (configured_ttl s)) (cache_ops w')
             /\ exists e, APICache w' !! key = Some e
                          /\ Some (payload e) = Writer_Body c'
                          /\ expiresAt e = (now w + configured_ttl s)%Z).
Proof.
  intros Hce. split; [reflexivity|].
  assert (HW : WrapperCache s m = WrapperCacheDuration s m (configured_ttl s)).
  { unfold WrapperCache, configured_ttl. rewrite Hce.
    destruct (_ >? 0)%Z; reflexivity. }
  split; [exact HW|]. intros c w key. rewrite HW, WrapperCacheDuration_eq, call_cache.
  fold key. cbv zeta.
  destruct (fresh_entry w (APICache w !! key)) as [e|] eqn:Hf.
  - eexists _, _. split; [reflexivity|]. split.
    + intros k ttl Hin. simpl in Hin. apply in_app_or in Hin as [Hin|[Hin|[]]].
      * left. exact Hin.
      * discriminate Hin.
    + intros Hn. discriminate Hn.
  - destruct (succeeded (Wrapper_body' m c)) eqn:Hs.
    + unfold newCacheEntry.
      assert (Hb : exists b, Writer_Body (Wrapper_body' m c) = Some b).
      { unfold succeeded in Hs. destruct (Writer_Body _) as [b|]; [eauto|discriminate]. }
      destruct Hb as [b Hb]. rewrite Hb.
      eexists _, _. split; [reflexivity|]. split.
      * intros k ttl Hin. simpl in Hin.
        apply in_app_or in Hin as [Hin|[Hin|[]]].
        -- apply in_app_or in Hin as [Hin|[Hin|[]]]; [left; exact Hin | discriminate Hin].
        -- injection Hin as <- <-. right. split; reflexivity.
      * intros _ _. split.
        -- simpl. apply in_or_app. right. left. reflexivity.
        -- eexists. split; [simpl; apply lookup_insert_eq|].
           split; [simpl; symmetry; exact Hb | reflexivity].
    + eexists _, _. split; [reflexivity|]. split.
      * intros k ttl Hin. simpl in Hin. apply in_app_or in Hin as [Hin|[Hin|[]]].
        -- left. exact Hin.
        -- discriminate Hin.
      * intros _ Hn. discriminate Hn.
Qed.

(** C8.  With caching disabled, [WrapperCache handler] is the plain
    [common.Wrapper handler]: every request goes straight to the handler
    and the cache store is neither read nor written. *)
Theorem WrapperCache_disabled (s : AdminServer) (m : string) :
  CacheEnable (AdminServer_ (cfg s)) = false ->
  WrapperCache s m = Wrapper m
  /\ forall c w,
       call' s (WrapperCache s m) c w = Some (Wrapper_body' m c, w)
       /\ call' s (WrapperCache s m) c w = call' s (Wrapper m) c w.
Proof.
  intros Hce.
  assert (HW : WrapperCache s m = Wrapper m).
  { unfold WrapperCache. rewrite Hce. reflexivity. }
  split; [exact HW|]. intros c w. rewrite HW. split; reflexivity.
Qed.

(** C9.  Of the response headers only Content-Type is cached and replayed:
    an entry the wrapper writes keeps the Content-Type header and no other,
    the store never holds an entry with another header, and a replay
    changes no header of the response but Content-Type. *)
Theorem cached_headers_only_Content_Type (s : AdminServer) (m : string)
    (dur : Duration) (c : Context) (w : World) :
  store_headers_ok w ->
  let key := cacheKey APICacheOptions c in
  exists c' w',
    call' s (WrapperCacheDuration s m dur) c w = Some (c', w')
    /\ store_headers_ok w'
    /\ (forall e, fresh_entry w (APICache w !! key) = Some e ->
          c' = replyWithCache e c
          /\ forall k, k <> "Content-Type" ->
               Writer_Header c' !! k = Writer_Header c !! k)
    /\ (fresh_entry w (APICache w !! key) = None ->
        succeeded (Wrapper_body' m c) = true ->
        exists e, APICache w' !! key = Some e
          /\ forall k, headers e !! k =
               if decide (k = "Content-Type") then Writer_Header c' !! k else None).
Proof.
  intros Hok key. rewrite WrapperCacheDuration_eq, call_cache. fold key. cbv zeta.
  destruct (fresh_entry w (APICache w !! key)) as [e|] eqn:Hf.
  - eexists _, _. split; [reflexivity|]. split; [exact Hok|]. split.
    + intros e0 He0. injection He0 as <-. split; [reflexivity|].
      intros k Hk. apply replyWithCache_headers; [|exact Hk].
      unfold fresh_entry in Hf. destruct (APICache w !! key) as [e1|] eqn:E; [|discriminate].
      destruct (fresh w e1); [|discriminate]. injection Hf as <-.
      exact (Hok key e1 E).
    + intros Hn. discriminate Hn.
  - destruct (succeeded (Wrapper_body' m c)) eqn:Hs.
    + unfold newCacheEntry.
      assert (Hb : exists b, Writer_Body (Wrapper_body' m c) = Some b).
      { unfold succeeded in Hs. destruct (Writer_Body _) as [b|]; [eauto|discriminate]. }
      destruct Hb as [b Hb]. rewrite Hb.
      eexists _, _. split; [reflexivity|]. split; [|split].
      * intros k e HL. simpl in HL.
        destruct (decide (key = k)) as [<-|Hne].
        -- rewrite lookup_insert_eq in HL. injection HL as <-. simpl.
           intros k' v Hk'. rewrite cachedHeaders_lookup in Hk'.
           destruct (decide (k' = "Content-Type")); [assumption|discriminate].
        -- rewrite lookup_insert_ne in HL by exact Hne. exact (Hok k e HL).
      * intros e He. discriminate He.
      * intros _ _. eexists. split; [simpl; apply lookup_insert_eq|].
        intros k. simpl. apply cachedHeaders_lookup.
    + eexists _, _. split; [reflexivity|]. split; [exact Hok|]. split.
      * intros e He. discriminate He.
      * intros _ Hn. discriminate Hn.
Qed.

(** C2.  Two requests with the same path and query but different tenants
    never have the same cache key, and a request of one tenant leaves what
    is stored under the other tenant's key untouched. *)
Theorem cache_key_separates_tenants (s : AdminServer) (m : string) (dur : Duration)
    (c1 c2 : Context) :
  req_Path (Request_ c1) = req_Path (Request_ c2) ->
  req_Query (Request_ c1) = req_Query (Request_ c2) ->
  GetNamespace c1 <> GetNamespace c2 ->
  cacheKeyOf (WrapperCacheDuration s m dur) c1 <> cacheKeyOf (WrapperCacheDuration s m dur) c2
  /\ forall w, exists c1' w1,
       call' s (WrapperCacheDuration s m dur) c1 w = Some (c1', w1)
       /\ APICache w1 !! cacheKey APICacheOptions c2 = APICache w !! cacheKey APICacheOptions c2.
Proof.
  intros Hp Hq Hns.
  assert (Hk : cacheKey APICacheOptions c1 <> cacheKey APICacheOptions c2).
  { intros H. apply Hns. exact (cacheKey_namespace c1 c2 Hp Hq H). }
  split.
  - simpl. intros H. injection H as H. exact (Hk H).
  - intros w. rewrite WrapperCacheDuration_eq, call_cache. cbv zeta.
    destruct (fresh_entry w _) as [e|].
    + eexists _, _. split; reflexivity.
    + destruct (if succeeded _ then _ else None) as [e'|].
      * eexists _, _. split; [reflexivity|]. simpl.
        apply lookup_insert_ne. exact Hk.
      * eexists _, _. split; reflexivity.
Qed.

(** C10.  The collector of the node quota check is the package variable
    [NodeCollector]: nil when the program starts and still nil after
    [NewAdminServer], written by [InitRoute] alone (from the server's
    [api.NodeNumberCollector]) and by no handler; so a check made before
    any [InitRoute] uses the nil collector, and after another server's
    [InitRoute] a server's check uses that other server's collector. *)
Theorem NodeCollector_is_package_state :
  NodeCollector Package_init = None
  /\ (forall config p,
        snd (NewAdminServer' config p) = p
        /\ forall s, fst (NewAdminServer' config p) = inr s ->
             api s = None /\ InitRoute s p = None)
  /\ (forall s p s' p',
        InitRoute s p = Some (s', p') ->
        exists a, api s = Some a /\ NodeCollector p' = NodeNumberCollector a)
  /\ (forall s hs c w c' w' tr,
        Next' s hs c w = Some (c', w', tr) -> pkg w' = pkg w)
  /\ (forall s c w,
        NodeQuotaHandler_body CheckQuota s c w =
        quota_check_with CheckQuota (NodeCollector (pkg w)) s c w)
  /\ (forall s c w,
        pkg w = Package_init ->
        NodeQuotaHandler_body CheckQuota s c w = quota_check_with CheckQuota None s c w)
  /\ (forall s1 s2 p0 s1' p1 s2' p2 a2 c w,
        InitRoute s1 p0 = Some (s1', p1) ->
        InitRoute s2 p1 = Some (s2', p2) ->
        api s2 = Some a2 ->
        pkg w = p2 ->
        NodeQuotaHandler_body CheckQuota s1' c w =
        quota_check_with CheckQuota (NodeNumberCollector a2) s1' c w).
Proof.
  split; [reflexivity|]. split; [|split; [|split; [|split; [|split]]]].
  - intros config p. unfold NewAdminServer.
    destruct (NewAuthService config); [split; [reflexivity|discriminate]|].
    destruct (NewLicenseService config); [split; [reflexivity|discriminate]|].
    destruct (NewQuotaService config); [split; [reflexivity|discriminate]|].
    split; [reflexivity|]. intros s H. injection H as <-. split; reflexivity.
  - intros s p s' p' H. apply InitRoute_Some in H as (a & Ha & _ & ->).
    exists a. split; [exact Ha | reflexivity].
  - intros s hs c w c' w' tr H. exact (Next_pkg s hs c w c' w' tr H).
  - reflexivity.
  - intros s c w Hp. unfold NodeQuotaHandler_body, quota_check_with.
    rewrite Hp. reflexivity.
  - intros s1 s2 p0 s1' p1 s2' p2 a2 c w H1 H2 Ha2 Hp.
    apply InitRoute_Some in H2 as (a & Ha & _ & ->).
    rewrite Ha in Ha2. injection Ha2 as ->.
    unfold NodeQuotaHandler_body, quota_check_with. rewrite Hp. reflexivity.
Qed.

End Facts.

(** ** The claims on the lock and on the quota as the specification words
    them *)

(** C5, as stated: the lock would be on update config, update node, update
    application and create application only.  The server also locks
    PUT /v1/certificates/:name. *)
Lemma lock_on_certificate_update : ~ lock_exactly_on spec_lock_routes Demo.routes.
Proof.
  intros [H _].
  assert (Hin : In {| Method := "PUT"; Path := "/v1/certificates/:name";
                      chain := [RequestIDHandler; LoggerHandler; AuthHandler; External "x";
                                WrapperWithLock; Wrapper "UpdateCertificate"] |}
                   Demo.routes).
  { vm_compute. tauto. }
  apply H in Hin. apply proj1 in Hin. specialize (Hin eq_refl).
  cbv in Hin. intuition discriminate.
Qed.

(** C1, as stated: every creation route would check the quota before its
    handler.  POST /v1/configs has no quota check in its chain. *)
Lemma configs_creation_unchecked : ~ quota_guards creation_routes Demo.routes.
Proof.
  intros H. destruct (H ("POST", "/v1/configs")) as (r & Hin & Hk & Hq).
  { simpl. tauto. }
  revert Hq. apply quota_not_before_terminal.
  revert Hin Hk. vm_compute.
  intros Hin Hk.
  repeat (destruct Hin as [<-|Hin]; [first [discriminate Hk | reflexivity]|]).
  destruct Hin.
Qed.

(** ** The theorems at the demonstration server *)

Lemma NodeQuotaHandler_guards_node_creation_witness :
  router (Demo.server true Demo.api_full) = gin_New
  /\ api (Demo.server true Demo.api_full) = Some Demo.api_full
  /\ exists s' p',
       InitRoute (Demo.server true Demo.api_full) Package_init = Some (s', p')
       /\ quota_guards [("POST", "/v1/nodes")] (trees (router s')).
Proof.
  split; [reflexivity|]. split; [reflexivity|].
  destruct (NodeQuotaHandler_guards_node_creation
              Demo.Authenticate Demo.CheckQuota Demo.Lock Demo.Unlock
              Demo.api_method Demo.opaque
              (Demo.server true Demo.api_full) Demo.api_full Package_init
              eq_refl eq_refl) as (s' & p' & HI & HG & _).
  exists s', p'. split; assumption.
Defined.

Lemma cache_key_separates_tenants_witness :
  req_Path (Request_ (Demo.request_of "ns1" "/v1/nodes/x"))
    = req_Path (Request_ (Demo.request_of "ns2" "/v1/nodes/x"))
  /\ req_Query (Request_ (Demo.request_of "ns1" "/v1/nodes/x"))
    = req_Query (Request_ (Demo.request_of "ns2" "/v1/nodes/x"))
  /\ GetNamespace (Demo.request_of "ns1" "/v1/nodes/x")
    <> GetNamespace (Demo.request_of "ns2" "/v1/nodes/x")
  /\ cacheKeyOf (WrapperCacheDuration (Demo.server true Demo.api_full) "GetNode" Second)
       (Demo.request_of "ns1" "/v1/nodes/x")
     <> cacheKeyOf (WrapperCacheDuration (Demo.server true Demo.api_full) "GetNode" Second)
          (Demo.request_of "ns2" "/v1/nodes/x").
Proof.
  assert (Hns : GetNamespace (Demo.request_of "ns1" "/v1/nodes/x")
                <> GetNamespace (Demo.request_of "ns2" "/v1/nodes/x")).
  { vm_compute. discriminate. }
  split; [reflexivity|]. split; [reflexivity|]. split; [exact Hns|].
  exact (proj1 (cache_key_separates_tenants
                  Demo.Authenticate Demo.CheckQuota Demo.Lock Demo.Unlock
                  Demo.api_method Demo.opaque
                  (Demo.server true Demo.api_full) "GetNode" Second
                  (Demo.request_of "ns1" "/v1/nodes/x")
                  (Demo.request_of "ns2" "/v1/nodes/x")
                  eq_refl eq_refl Hns)).
Defined.

Lemma AuthHandler_first_in_v1_v2_witness :
  router (Demo.server true Demo.api_full) = gin_New
  /\ api (Demo.server true Demo.api_full) = Some Demo.api_full
  /\ exists s' p',
       InitRoute (Demo.server true Demo.api_full) Package_init = Some (s', p')
       /\ has_auth (allNoRoute (router s')) = false
       /\ has_auth (allNoMethod (router s')) = false
       /\ forall r, In r (trees (router s')) ->
            (has_auth (chain r) = false <-> r = health_route)
            /\ auth_guarded (chain r) = true.
Proof.
  split; [reflexivity|]. split; [reflexivity|].
  destruct (AuthHandler_first_in_v1_v2
              Demo.Authenticate Demo.CheckQuota Demo.Lock Demo.Unlock
              Demo.api_method Demo.opaque
              (Demo.server true Demo.api_full) Demo.api_full Package_init
              eq_refl eq_refl) as (s' & p' & HI & _ & _ & Hnr & Hnm & Hall).
  exists s', p'. split; [exact HI|]. split; [exact Hnr|]. split; [exact Hnm|].
  intros r Hin. destruct (Hall r Hin) as (H1 & _ & H3 & _). split; assumption.
Defined.

Lemma AuthHandler_failure_aborts_witness :
  Demo.Authenticate (Request_ (Demo.request "POST" "/v1/nodes" None))
                    (Keys (Demo.request "POST" "/v1/nodes" None))
    = (Keys (Demo.request "POST" "/v1/nodes" None),
       Some {| err_code := "ErrUnauthorized"; err_message := "no credential" |})
  /\ exists c' w',
       Demo.run (Demo.server true Demo.api_full)
         [AuthHandler; WrapperWithLock; NodeQuotaHandler; Wrapper "CreateNode"]
         (Demo.request "POST" "/v1/nodes" None) (Demo.world Package_init)
       = Some (c', w', [AuthHandler])
       /\ Writer_Body c' = Some (Failure "ErrRequestAccessDenied" "no credential" "t-1")
       /\ aborted c' = true.
Proof.
  split; [reflexivity|].
  destruct (AuthHandler_failure_aborts
              Demo.Authenticate Demo.CheckQuota Demo.Lock Demo.Unlock
              Demo.api_method Demo.opaque
              (Demo.server true Demo.api_full)
              [WrapperWithLock; NodeQuotaHandler; Wrapper "CreateNode"]
              (Demo.request "POST" "/v1/nodes" None) (Demo.world Package_init)
              (Keys (Demo.request "POST" "/v1/nodes" None))
              {| err_code := "ErrUnauthorized"; err_message := "no credential" |}
              eq_refl) as (c' & w' & HN & HB & HA & _).
  exists c', w'. split; [exact HN|]. split; [exact HB | exact HA].
Defined.

Lemma lock_routes_exact_witness :
  router (Demo.server true Demo.api_full) = gin_New
  /\ api (Demo.server true Demo.api_full) = Some Demo.api_full
  /\ exists s' p',
       InitRoute (Demo.server true Demo.api_full) Package_init = Some (s', p')
       /\ lock_exactly_on lock_routes (trees (router s')).
Proof.
  split; [reflexivity|]. split; [reflexivity|].
  exact (lock_routes_exact (Demo.server true Demo.api_full) Demo.api_full
           Package_init eq_refl eq_refl).
Defined.

Lemma stages_in_fixed_order_witness :
  router (Demo.server true Demo.api_full) = gin_New
  /\ api (Demo.server true Demo.api_full) = Some Demo.api_full
  /\ exists s' p',
       InitRoute (Demo.server true Demo.api_full) Package_init = Some (s', p')
       /\ forall r, In r (trees (router s')) -> increasing (stages (chain r)) = true.
Proof.
  split; [reflexivity|]. split; [reflexivity|].
  destruct (stages_in_fixed_order
              Demo.Authenticate Demo.CheckQuota Demo.Lock Demo.Unlock
              Demo.api_method Demo.opaque
              (Demo.server true Demo.api_full) Demo.api_full Package_init
              eq_refl eq_refl) as (s' & p' & HI & Hall & _).
  exists s', p'. split; [exact HI|].
  intros r Hin. exact (proj1 (Hall r Hin)).
Defined.

Lemma WrapperCache_ttl_witness :
  CacheEnable (AdminServer_ (cfg (Demo.server true Demo.api_full))) = true
  /\ WrapperCache (Demo.server true Demo.api_full) "GetNode"
     = WrapperCacheDuration (Demo.server true Demo.api_full) "GetNode" 2000000000%Z.
Proof.
  split; [reflexivity|].
  exact (proj1 (proj2 (WrapperCache_ttl
                         Demo.Authenticate Demo.CheckQuota Demo.Lock Demo.Unlock
                         Demo.api_method Demo.opaque
                         (Demo.server true Demo.api_full) "GetNode" eq_refl))).
Defined.

Lemma WrapperCache_disabled_witness :
  CacheEnable (AdminServer_ (cfg (Demo.server false Demo.api_full))) = false
  /\ WrapperCache (Demo.server false Demo.api_full) "GetNode" = Wrapper "GetNode"
  /\ forall c w,
       Demo.run1 (Demo.server false Demo.api_full)
         (WrapperCache (Demo.server false Demo.api_full) "GetNode") c w
       = Some (Wrapper_body Demo.api_method "GetNode" c, w)
       /\ Demo.run1 (Demo.server false Demo.api_full)
            (WrapperCache (Demo.server false Demo.api_full) "GetNode") c w
          = Demo.run1 (Demo.server false Demo.api_full) (Wrapper "GetNode") c w.
Proof.
  split; [reflexivity|].
  exact (WrapperCache_disabled
           Demo.Authenticate Demo.CheckQuota Demo.Lock Demo.Unlock
           Demo.api_method Demo.opaque
           (Demo.server false Demo.api_full) "GetNode" eq_refl).
Defined.

Lemma empty_store_headers_ok : store_headers_ok (Demo.world Package_init).
Proof. intros k e H. simpl in H. rewrite lookup_empty in H. discriminate H. Defined.

Lemma cached_headers_only_Content_Type_witness :
  store_headers_ok (Demo.world Package_init)
  /\ exists c' w',
       Demo.run1 (Demo.server true Demo.api_full)
         (WrapperCacheDuration (Demo.server true Demo.api_full) "GetNode" Second)
         (Demo.request_of "ns1" "/v1/nodes/x") (Demo.world Package_init)
       = Some (c', w')
       /\ store_headers_ok w'.
Proof.
  split; [exact empty_store_headers_ok|].
  destruct (cached_headers_only_Content_Type
              Demo.Authenticate Demo.CheckQuota Demo.Lock Demo.Unlock
              Demo.api_method Demo.opaque
              (Demo.server true Demo.api_full) "GetNode" Second
              (Demo.request_of "ns1" "/v1/nodes/x") (Demo.world Package_init)
              empty_store_headers_ok) as (c' & w' & HC & Hok & _).
  exists c', w'. split; [exact HC | exact Hok].
Defined.

Lemma NodeCollector_is_package_state_witness :
  exists s1' p1 s2' p2,
    InitRoute (Demo.server true Demo.api_full) Package_init = Some (s1', p1)
    /\ InitRoute (Demo.server true Demo.api_small) p1 = Some (s2', p2)
    /\ api (Demo.server true Demo.api_small) = Some Demo.api_small
    /\ pkg (Demo.world p2) = p2
    /\ NodeQuotaHandler_body Demo.CheckQuota s1'
         (Demo.request_of "ns1" "/v1/nodes") (Demo.world p2)
       = quota_check_with Demo.CheckQuota (Some Demo.small_collector) s1'
           (Demo.request_of "ns1" "/v1/nodes") (Demo.world p2).
Proof.
  eexists _, _, _, _.
  split; [reflexivity|]. split; [reflexivity|]. split; [reflexivity|].
  split; [reflexivity|].
  destruct (NodeCollector_is_package_state
              Demo.Authenticate Demo.CheckQuota Demo.Lock Demo.Unlock
              Demo.api_method Demo.opaque
              Demo.NewService Demo.NewService Demo.NewService)
    as (_ & _ & _ & _ & _ & _ & H).
  exact (H (Demo.server true Demo.api_full) (Demo.server true Demo.api_small)
           Package_init _ _ _ _ Demo.api_small
           (Demo.request_of "ns1" "/v1/nodes") (Demo.world _)
           eq_refl eq_refl eq_refl eq_refl).
Defined.

(** ** Runs of the node-creation chain and of the cache *)

Example create_node_quota_exceeded :
  Demo.observe
    (Demo.run (Demo.server true Demo.api_full) Demo.create_node_chain
       (Demo.request "POST" "/v1/nodes" (Some "ns1"))
       (Demo.world {| NodeCollector := Some Demo.full_collector |}))
  = Some (Some (Failure "ErrQuota" "quota exceeded" "t-1"),
          [RequestIDHandler; LoggerHandler; AuthHandler; External "x";
           WrapperWithLock; NodeQuotaHandler],
          ["quota out of limit"]).
Proof. vm_compute. reflexivity. Qed.

Example create_node_within_quota :
  Demo.observe
    (Demo.run (Demo.server true Demo.api_small) Demo.create_node_chain
       (Demo.request "POST" "/v1/nodes" (Some "ns1"))
       (Demo.world {| NodeCollector := Some Demo.small_collector |}))
  = Some (Some (Success "result of CreateNode"), Demo.create_node_chain, []).
Proof. vm_compute. reflexivity. Qed.

Example create_node_unauthenticated :
  Demo.observe
    (Demo.run (Demo.server true Demo.api_small) Demo.create_node_chain
       (Demo.request "POST" "/v1/nodes" None)
       (Demo.world {| NodeCollector := Some Demo.small_collector |}))
  = Some (Some (Failure "ErrRequestAccessDenied" "no credential" "t-1"),
          [RequestIDHandler; LoggerHandler; AuthHandler],
          ["request authenticate failed"]).
Proof. vm_compute. reflexivity. Qed.

Example create_node_before_InitRoute :
  Demo.observe
    (Demo.run (Demo.server true Demo.api_small) Demo.create_node_chain
       (Demo.request "POST" "/v1/nodes" (Some "ns1"))
       (Demo.world Package_init))
  = Some (Some (Failure "ErrQuota" "no collector" "t-1"),
          [RequestIDHandler; LoggerHandler; AuthHandler; External "x";
           WrapperWithLock; NodeQuotaHandler],
          ["quota out of limit"]).
Proof. vm_compute. reflexivity. Qed.

Example cache_key_of_request :
  cacheKey APICacheOptions (Demo.request_of "ns1" "/v1/nodes/x")
  = "/v1/nodes/x?&a=1&b=2#ns1;".
Proof. vm_compute. reflexivity. Qed.

Example cache_miss_then_hit :
  match Demo.run1 (Demo.server true Demo.api_full)
          (WrapperCache (Demo.server true Demo.api_full) "GetNode")
          (Demo.request_of "ns1" "/v1/nodes/x") (Demo.world Package_init) with
  | Some (c1, w1) =>
      match Demo.run1 (Demo.server true Demo.api_full)
              (WrapperCache (Demo.server true Demo.api_full) "GetNode")
              (Demo.request_of "ns1" "/v1/nodes/x") w1 with
      | Some (c2, w2) => Some (Writer_Body c1, Writer_Body c2, cache_ops w2)
      | None => None
      end
  | None => None
  end
  = Some (Some (Success "result of GetNode"), Some (Success "result of GetNode"),
          [CacheGet "/v1/nodes/x?&a=1&b=2#ns1;";
           CacheSet "/v1/nodes/x?&a=1&b=2#ns1;" 2000000000%Z;
           CacheGet "/v1/nodes/x?&a=1&b=2#ns1;"]).
Proof. vm_compute. reflexivity. Qed.

(** ** More facts about the route table *)

Lemma nodup_keys_NoDup (l : list (string * string)) :
  nodup_keys l = true -> List.NoDup l.
Proof.
  induction l as [|[m p] l IH]; simpl; intros H; [constructor|].
  apply andb_true_iff in H as [Hn Hl]. apply negb_true_iff in Hn.
  constructor; [|exact (IH Hl)].
  intros Hin. apply route_is_In in Hin. congruence.
Qed.

Lemma has_key_In (m p : string) (l : list (string * string)) :
  existsb (route_is m p) l = false -> ~ In (m, p) l.
Proof. intros H Hin. apply route_is_In in Hin. congruence. Qed.

Lemma plugin_flags_Functions (config : CloudConfig) :
  fst (plugin_flags config) = true <-> Functions (Plugin config) <> [].
Proof.
  unfold plugin_flags. simpl. destruct (Functions (Plugin config)); simpl.
  - split; [discriminate | congruence].
  - split; [discriminate | reflexivity].
Qed.

Lemma plugin_flags_Objects (config : CloudConfig) :
  snd (plugin_flags config) = true <-> Objects (Plugin config) <> [].
Proof.
  unfold plugin_flags. simpl. destruct (Objects (Plugin config)); simpl.
  - split; [discriminate | congruence].
  - split; [discriminate | reflexivity].
Qed.

(** The methods and paths registered are those of the bare server with the
    same plugin flags. *)
Lemma InitRoute_keys (s : AdminServer) (a : API) (p : Package) :
  router s = gin_New -> api s = Some a ->
  route_keys s p = route_keys (flag_server (plugin_flags (cfg s))) Package_init.
Proof.
  destruct s as [ext [[ce cd] [fs os]] ap rt]; simpl; intros -> ->.
  destruct fs, os; vm_compute; reflexivity.
Qed.

Lemma route_keys_trees (s s' : AdminServer) (p p' : Package) :
  InitRoute s p = Some (s', p') -> map route_key (trees (router s')) = route_keys s p.
Proof. intros H. unfold route_keys. rewrite H. reflexivity. Qed.

Lemma flag_server_keys_NoDup (flags : bool * bool) :
  nodup_keys (route_keys (flag_server flags) Package_init) = true.
Proof. destruct flags as [[] []]; vm_compute; reflexivity. Qed.

Lemma flag_server_function_routes (flags : bool * bool) :
  forallb (fun mp => Bool.eqb (existsb (route_is (fst mp) (snd mp))
                                 (route_keys (flag_server flags) Package_init))
                              (fst flags))
          function_source_routes = true.
Proof. destruct flags as [[] []]; vm_compute; reflexivity. Qed.

Lemma flag_server_object_routes (flags : bool * bool) :
  forallb (fun mp => Bool.eqb (existsb (route_is (fst mp) (snd mp))
                                 (route_keys (flag_server flags) Package_init))
                              (snd flags))
          object_source_routes = true.
Proof. destruct flags as [[] []]; vm_compute; reflexivity. Qed.

Lemma flag_server_listing_routes (flags : bool * bool) :
  forallb (fun mp => existsb (route_is (fst mp) (snd mp))
                       (route_keys (flag_server flags) Package_init))
          source_listing_routes = true.
Proof. destruct flags as [[] []]; vm_compute; reflexivity. Qed.

Lemma shaped_route_intro (s : AdminServer) (m p : string) (pre hs : list HandlerFunc) :
  pre = group_prefix s -> OwnHandlers (cfg s) m hs ->
  shaped_route s {| Method := m; Path := p; chain := pre ++ hs |}.
Proof. intros -> H. exists hs. split; [reflexivity | exact H]. Qed.

(** Every route but the health route has its handlers in one of the forms
    of [OwnHandlers]. *)
Lemma InitRoute_shapes (s : AdminServer) (a : API) (p : Package) :
  router s = gin_New -> api s = Some a ->
  exists e,
    InitRoute s p = Some (set_router s e, {| NodeCollector := NodeNumberCollector a |})
    /\ exists rs, trees e = health_route :: rs /\ Forall (shaped_route s) rs.
Proof.
  destruct s as [ext [[ce cd] [fs os]] ap rt]; simpl; intros -> ->.
  eexists; split; [reflexivity|].
  destruct fs, os;
    lazy -[app map shaped_route group_prefix WrapperCache].
  all: eexists; split; [reflexivity|].
  all: repeat constructor.
  all: apply shaped_route_intro;
    [ simpl; rewrite ?app_nil_r; reflexivity
    | first [ apply own_cached; reflexivity | constructor ] ].
Qed.

Lemma shaped_route_of (s : AdminServer) (rs : list RouteInfo) (r : RouteInfo) :
  Forall (shaped_route s) rs -> In r rs -> shaped_route s r.
Proof. intros H Hin. exact (proj1 (List.Forall_forall _ _) H r Hin). Qed.

Lemma In_group_prefix (s : AdminServer) (h : HandlerFunc) :
  In h (group_prefix s) ->
  h = RequestIDHandler \/ h = LoggerHandler \/ h = AuthHandler
  \/ exists n, h = External n.
Proof.
  unfold group_prefix. simpl. intros [<-|[<-|[<-|Hin]]]; [tauto..|].
  apply in_map_iff in Hin as (n & <- & _). right. right. right. exists n. reflexivity.
Qed.

Lemma WrapperCache_cases (s : AdminServer) (h : string) :
  (CacheEnable (AdminServer_ (cfg s)) = false /\ WrapperCache s h = Wrapper h)
  \/ (CacheEnable (AdminServer_ (cfg s)) = true
      /\ WrapperCache s h =
           WCacheByRequestURI (configured_ttl s) (Wrapper h) APICacheOptions).
Proof.
  unfold WrapperCache, configured_ttl.
  destruct (CacheEnable _); [right|left]; (split; [reflexivity|]).
  - destruct (_ >? 0)%Z; reflexivity.
  - reflexivity.
Qed.

Lemma configured_ttl_pos (s : AdminServer) : (0 < configured_ttl s)%Z.
Proof.
  unfold configured_ttl. destruct (_ >? 0)%Z eqn:E.
  - apply Z.gtb_lt in E. exact E.
  - reflexivity.
Qed.

Lemma configured_ttl_cfg (s s' : AdminServer) :
  cfg s' = cfg s -> configured_ttl s' = configured_ttl s.
Proof. unfold configured_ttl. intros ->. reflexivity. Qed.

Lemma is_terminal_WrapperCache (s : AdminServer) (h : string) :
  is_terminal (WrapperCache s h) = true.
Proof. destruct (WrapperCache_cases s h) as [[_ ->]|[_ ->]]; reflexivity. Qed.

Lemma is_terminal_group_prefix (s : AdminServer) :
  existsb is_terminal (group_prefix s) = false.
Proof.
  unfold group_prefix. rewrite existsb_app.
  rewrite existsb_map_External by reflexivity. reflexivity.
Qed.

Lemma own_handlers_ok_external (m p : string) (hs : list HandlerFunc) :
  own_handlers_ok m p hs = true -> existsb is_external hs = false.
Proof.
  unfold own_handlers_ok. rewrite !andb_true_iff.
  intros [[[[[[[_ _] He] _] _] _] _] _]. apply negb_true_iff in He. exact He.
Qed.

Lemma In_trees_cases {P : RouteInfo -> Prop} (rs : list RouteInfo) (r : RouteInfo) :
  Forall P rs -> In r (health_route :: rs) -> r = health_route \/ P r.
Proof.
  intros H [<-|Hin]; [left; reflexivity|].
  right. exact (proj1 (List.Forall_forall _ _) H r Hin).
Qed.

(** ** Further properties of [InitRoute] *)

(** X1.  [InitRoute] registers no method and path twice, whatever the
    configuration: gin would refuse the second registration. *)
Theorem InitRoute_registers_each_route_once (s : AdminServer) (a : API) (p : Package) :
  router s = gin_New -> api s = Some a ->
  exists s' p',
    InitRoute s p = Some (s', p')
    /\ List.NoDup (map route_key (trees (router s'))).
Proof.
  intros Hr Ha.
  destruct (InitRoute_routes s a p Hr Ha) as (e & HI & _).
  eexists _, _. split; [exact HI|].
  rewrite (route_keys_trees _ _ _ _ HI), (InitRoute_keys s a p Hr Ha).
  apply nodup_keys_NoDup, flag_server_keys_NoDup.
Qed.

(** X2.  The routes that browse a function source are registered exactly
    when function sources are configured, those that browse an object
    source (v1 and v2) exactly when object sources are configured; the
    listings of the sources are registered in every case. *)
Theorem source_routes_follow_plugins (s : AdminServer) (a : API) (p : Package) :
  router s = gin_New -> api s = Some a ->
  exists s' p',
    InitRoute s p = Some (s', p')
    /\ (forall mp, In mp function_source_routes ->
          (In mp (map route_key (trees (router s')))
           <-> Functions (Plugin (cfg s)) <> []))
    /\ (forall mp, In mp object_source_routes ->
          (In mp (map route_key (trees (router s')))
           <-> Objects (Plugin (cfg s)) <> []))
    /\ (forall mp, In mp source_listing_routes ->
          In mp (map route_key (trees (router s')))).
Proof.
  intros Hr Ha.
  destruct (InitRoute_routes s a p Hr Ha) as (e & HI & _).
  eexists _, _. split; [exact HI|].
  rewrite (route_keys_trees _ _ _ _ HI), (InitRoute_keys s a p Hr Ha).
  split; [|split].
  - intros [m q] Hin.
    pose proof (forallb_In _ _ _ (flag_server_function_routes (plugin_flags (cfg s))) Hin) as H.
    apply Bool.eqb_prop in H.
    change (fst (m, q)) with m in H. change (snd (m, q)) with q in H.
    etransitivity; [symmetry; apply route_is_In|]. rewrite H.
    apply plugin_flags_Functions.
  - intros [m q] Hin.
    pose proof (forallb_In _ _ _ (flag_server_object_routes (plugin_flags (cfg s))) Hin) as H.
    apply Bool.eqb_prop in H.
    change (fst (m, q)) with m in H. change (snd (m, q)) with q in H.
    etransitivity; [symmetry; apply route_is_In|]. rewrite H.
    apply plugin_flags_Objects.
  - intros [m q] Hin.
    pose proof (forallb_In _ _ _ (flag_server_listing_routes (plugin_flags (cfg s))) Hin) as H.
    apply route_is_In. exact H.
Qed.

(** X3.  Which methods and paths are registered depends only on whether
    function sources and object sources are configured: not on the cache
    settings, the external handlers, the API or the package state. *)
Theorem route_keys_depend_on_plugins_only
    (s1 s2 : AdminServer) (a1 a2 : API) (p1 p2 : Package) :
  router s1 = gin_New -> api s1 = Some a1 ->
  router s2 = gin_New -> api s2 = Some a2 ->
  (Functions (Plugin (cfg s1)) = [] <-> Functions (Plugin (cfg s2)) = []) ->
  (Objects (Plugin (cfg s1)) = [] <-> Objects (Plugin (cfg s2)) = []) ->
  exists s1' p1' s2' p2',
    InitRoute s1 p1 = Some (s1', p1')
    /\ InitRoute s2 p2 = Some (s2', p2')
    /\ map route_key (trees (router s1')) = map route_key (trees (router s2')).
Proof.
  intros Hr1 Ha1 Hr2 Ha2 HF HO.
  destruct (InitRoute_routes s1 a1 p1 Hr1 Ha1) as (e1 & HI1 & _).
  destruct (InitRoute_routes s2 a2 p2 Hr2 Ha2) as (e2 & HI2 & _).
  eexists _, _, _, _. split; [exact HI1|]. split; [exact HI2|].
  rewrite (route_keys_trees _ _ _ _ HI1), (route_keys_trees _ _ _ _ HI2).
  rewrite (InitRoute_keys s1 a1 p1 Hr1 Ha1), (InitRoute_keys s2 a2 p2 Hr2 Ha2).
  f_equal. f_equal. unfold plugin_flags.
  destruct (Functions (Plugin (cfg s1))), (Functions (Plugin (cfg s2))),
           (Objects (Plugin (cfg s1))), (Objects (Plugin (cfg s2)));
    try reflexivity;
    try (exfalso; destruct HF as [HF1 HF2];
         first [discriminate (HF1 eq_refl) | discriminate (HF2 eq_refl)]);
    try (exfalso; destruct HO as [HO1 HO2];
         first [discriminate (HO1 eq_refl) | discriminate (HO2 eq_refl)]).
Qed.

(** X4.  The health route is registered before the engine's middlewares
    are installed, so its chain is the health handler alone, without
    request id or logging; the chains for unmatched paths and methods are
    rebuilt when the middlewares are installed and do carry both. *)
Theorem health_route_has_no_middleware (s : AdminServer) (a : API) (p : Package) :
  router s = gin_New -> api s = Some a ->
  exists s' p',
    InitRoute s p = Some (s', p')
    /\ Handlers (root (router s')) = [RequestIDHandler; LoggerHandler]
    /\ In health_route (trees (router s'))
    /\ (forall r, In r (trees (router s')) -> Path r = "/health" -> chain r = [Health])
    /\ allNoRoute (router s') = [RequestIDHandler; LoggerHandler; NoRouteHandler]
    /\ allNoMethod (router s') = [RequestIDHandler; LoggerHandler; NoMethodHandler].
Proof.
  intros Hr Ha.
  destruct (InitRoute_routes s a p Hr Ha)
    as (e & HI & Hnr & Hnm & Hroot & rs & Ht & Hall & _).
  eexists _, _. split; [exact HI|]. simpl router. rewrite Hroot, Ht, Hnr, Hnm.
  split; [reflexivity|]. split; [left; reflexivity|].
  split; [|split; reflexivity].
  intros r Hin Hp.
  destruct (In_trees_cases rs r Hall Hin) as [->|(hs & _ & Hok)]; [reflexivity|].
  apply own_handlers_ok_inv in Hok as (Hv & _). rewrite Hp in Hv. discriminate Hv.
Qed.

(** X5.  A cache wrapper occurs only on GET routes and only when caching is
    enabled; it is then the one handler the route adds to the prefix of its
    group, it wraps [common.Wrapper] of an API method with the options of
    [WrapperCacheDuration], and its duration is the configured one, which
    is strictly positive.  No cached route takes the lock or checks the
    quota. *)
Theorem cache_only_on_GET_routes (s : AdminServer) (a : API) (p : Package) :
  router s = gin_New -> api s = Some a ->
  exists s' p',
    InitRoute s p = Some (s', p')
    /\ forall r h, In r (trees (router s')) -> In h (chain r) -> is_cache h = true ->
         Method r = "GET"
         /\ CacheEnable (AdminServer_ (cfg s)) = true
         /\ (exists m, h = WrapperCacheDuration s m (configured_ttl s))
         /\ (0 < configured_ttl s)%Z
         /\ chain r = group_prefix s ++ [h]
         /\ has_lock (chain r) = false
         /\ has_quota (chain r) = false.
Proof.
  intros Hr Ha.
  destruct (InitRoute_shapes s a p Hr Ha) as (e & HI & rs & Ht & Hall).
  eexists _, _. split; [exact HI|]. simpl router. rewrite Ht.
  intros r h Hin Hh Hc.
  destruct (In_trees_cases rs r Hall Hin) as [->|(hs & Hch & Hs)].
  { destruct Hh as [<-|[]]. discriminate Hc. }
  rewrite Hch in Hh. apply in_app_or in Hh as [Hh|Hh].
  { apply In_group_prefix in Hh as [->|[->|[->|[n ->]]]]; discriminate Hc. }
  assert (Hgoal : Method r = "GET"
            /\ CacheEnable (AdminServer_ (cfg s)) = true
            /\ (exists m, h = WrapperCacheDuration s m (configured_ttl s))
            /\ hs = [h]).
  { inversion Hs as [s0 h0 Hcfg Hm Hhs| | | | | |]; subst hs.
    2-7: simpl in Hh; repeat (destruct Hh as [<-|Hh]; [discriminate Hc|]);
         destruct Hh.
    destruct Hh as [<-|[]].
    destruct (WrapperCache_cases s0 h0) as [[_ Hw]|[Hce Hw]];
      rewrite Hw in Hc |- *; [discriminate Hc|].
    rewrite Hcfg in Hce. rewrite (configured_ttl_cfg s s0 Hcfg).
    repeat split; [exact Hce|]. exists h0. reflexivity. }
  destruct Hgoal as (Hm & Hce & Hw & ->).
  split; [exact Hm|]. split; [exact Hce|]. split; [exact Hw|].
  split; [apply configured_ttl_pos|]. split; [exact Hch|].
  rewrite Hch, has_lock_group_prefix, has_quota_group_prefix.
  destruct h; try discriminate Hc. split; reflexivity.
Qed.

(** X6.  A validator ([common.WrapperRaw]) is always installed with the
    abort flag set, validates for creation on POST routes and for deletion
    on DELETE routes, and is the first handler after the prefix of the
    group, so that it runs before the lock is taken and before the terminal
    handler. *)
Theorem validators_run_first (s : AdminServer) (a : API) (p : Package) :
  router s = gin_New -> api s = Some a ->
  exists s' p',
    InitRoute s p = Some (s', p')
    /\ forall r v ab, In r (trees (router s')) -> In (WrapperRaw v ab) (chain r) ->
         ab = true
         /\ ((Method r = "POST" /\ v = "ValidateResourceForCreating")
             \/ (Method r = "DELETE" /\ v = "ValidateResourceForDeleting"))
         /\ exists rest,
              chain r = group_prefix s ++ WrapperRaw v ab :: rest
              /\ existsb is_validator rest = false.
Proof.
  intros Hr Ha.
  destruct (InitRoute_shapes s a p Hr Ha) as (e & HI & rs & Ht & Hall).
  eexists _, _. split; [exact HI|]. simpl router. rewrite Ht.
  intros r v ab Hin Hh.
  destruct (In_trees_cases rs r Hall Hin) as [->|(hs & Hch & Hs)].
  { destruct Hh as [Hh|[]]. discriminate Hh. }
  rewrite Hch in Hh |- *. apply in_app_or in Hh as [Hh|Hh].
  { apply In_group_prefix in Hh as [Hh|[Hh|[Hh|[n Hh]]]]; discriminate Hh. }
  inversion Hs as [s0 h0 Hcfg Hm Hhs|m0 h0 Hm Hhs|h0 Hm Hhs|h0 Hm Hhs|h0 Hm Hhs
                  |h0 Hm Hhs|h0 Hm Hhs]; subst hs; simpl in Hh.
  - destruct Hh as [Hh|[]].
    destruct (WrapperCache_cases s0 h0) as [[_ Hw]|[_ Hw]];
      rewrite Hw in Hh; discriminate Hh.
  - destruct Hh as [Hh|[]]. discriminate Hh.
  - destruct Hh as [Hh|[Hh|[]]]; discriminate Hh.
  - destruct Hh as [Hh|[Hh|[]]]; [|discriminate Hh].
    injection Hh as <- <-. split; [reflexivity|]. split; [right; split; reflexivity|].
    eexists. split; reflexivity.
  - destruct Hh as [Hh|[Hh|[]]]; [|discriminate Hh].
    injection Hh as <- <-. split; [reflexivity|]. split; [left; split; reflexivity|].
    eexists. split; reflexivity.
  - destruct Hh as [Hh|[Hh|[Hh|[]]]]; [|discriminate Hh..].
    injection Hh as <- <-. split; [reflexivity|]. split; [left; split; reflexivity|].
    eexists. split; reflexivity.
  - destruct Hh as [Hh|[Hh|[Hh|[]]]]; discriminate Hh.
Qed.

(** X7.  On every route but the health route the terminal handler is the
    last handler of the chain and the only terminal handler in it: nothing
    is installed to run after it. *)
Theorem terminal_handler_is_last (s : AdminServer) (a : API) (p : Package) :
  router s = gin_New -> api s = Some a ->
  exists s' p',
    InitRoute s p = Some (s', p')
    /\ forall r, In r (trees (router s')) -> r <> health_route ->
         exists pre t,
           chain r = pre ++ [t]
           /\ is_terminal t = true
           /\ existsb is_terminal pre = false.
Proof.
  intros Hr Ha.
  destruct (InitRoute_shapes s a p Hr Ha) as (e & HI & rs & Ht & Hall).
  eexists _, _. split; [exact HI|]. simpl router. rewrite Ht.
  intros r Hin Hne.
  destruct (In_trees_cases rs r Hall Hin) as [->|(hs & Hch & Hs)]; [contradiction|].
  rewrite Hch.
  assert (H : exists own t, hs = own ++ [t] /\ is_terminal t = true
                            /\ existsb is_terminal own = false).
  { inversion Hs; subst hs.
    - exists [], (WrapperCache s0 h). split; [reflexivity|].
      split; [apply is_terminal_WrapperCache | reflexivity].
    - exists [], (Wrapper h). repeat split.
    - exists [WrapperWithLock], (Wrapper h). repeat split.
    - exists [WrapperRaw "ValidateResourceForDeleting" true], (Wrapper h). repeat split.
    - exists [WrapperRaw "ValidateResourceForCreating" true], (Wrapper h). repeat split.
    - exists [WrapperRaw "ValidateResourceForCreating" true; WrapperWithLock], (Wrapper h).
      repeat split.
    - exists [WrapperWithLock; NodeQuotaHandler], (Wrapper h). repeat split. }
  destruct H as (own & t & -> & Hterm & Hown).
  exists (group_prefix s ++ own), t. split; [rewrite app_assoc; reflexivity|].
  split; [exact Hterm|].
  rewrite existsb_app, is_terminal_group_prefix, Hown. reflexivity.
Qed.

(** ** Further properties of the server's start and of its two gates *)

Section MoreFacts.

Variable Authenticate : Request -> gmap string string -> gmap string string * option error.
Variable CheckQuota : string -> option QuotaCollector -> option error.
Variable NewAuthService : CloudConfig -> option error.
Variable NewLicenseService : CloudConfig -> option error.
Variable NewQuotaService : CloudConfig -> option error.

Local Abbreviation NewAdminServer' :=
  (NewAdminServer NewAuthService NewLicenseService NewQuotaService).

(** X8.  The start of a server composes: when the three services can be
    built, [NewAdminServer] returns a server on which [InitRoute] panics
    until [SetAPI] is called, and after [SetAPI] it succeeds, leaves the
    configuration and the API in place, sets [NodeCollector] from that API,
    and, no external handler being set, gives every route but the health
    route a chain that starts with request id, logger and authentication
    and holds no external handler. *)
Theorem startup_sequence (config : CloudConfig) (a : API) (p : Package) :
  NewAuthService config = None ->
  NewLicenseService config = None ->
  NewQuotaService config = None ->
  exists s0 s',
    NewAdminServer' config p = (inr s0, p)
    /\ InitRoute s0 p = None
    /\ InitRoute (SetAPI a s0) p = Some (s', {| NodeCollector := NodeNumberCollector a |})
    /\ cfg s' = config
    /\ api s' = Some a
    /\ forall r, In r (trees (router s')) ->
         r = health_route
         \/ (exists hs, chain r = [RequestIDHandler; LoggerHandler; AuthHandler] ++ hs)
            /\ existsb is_external (chain r) = false.
Proof.
  intros H1 H2 H3. unfold NewAdminServer. rewrite H1, H2, H3.
  set (s0 := {| ExternalHandlers := []; cfg := config; api := None; router := gin_New |}).
  destruct (InitRoute_routes (SetAPI a s0) a p eq_refl eq_refl)
    as (e & HI & _ & _ & _ & rs & Ht & Hall & _).
  eexists s0, _. split; [reflexivity|]. split; [reflexivity|].
  split; [exact HI|]. split; [reflexivity|]. split; [reflexivity|].
  simpl router. rewrite Ht. intros r Hin.
  destruct (In_trees_cases rs r Hall Hin) as [->|(hs & Hc & Hok)]; [left; reflexivity|].
  right. rewrite Hc. split; [exists hs; reflexivity|].
  apply own_handlers_ok_external in Hok. simpl. exact Hok.
Qed.

(** X9.  [NewAdminServer] returns a server exactly when the auth, license
    and quota services can all be built, and that server has a fresh
    router, no API and no external handler; otherwise it returns the error
    of the first service, in that order, that cannot be built. *)
Theorem NewAdminServer_outcome (config : CloudConfig) (p : Package) :
  ((exists s, fst (NewAdminServer' config p) = inr s)
   <-> NewAuthService config = None /\ NewLicenseService config = None
       /\ NewQuotaService config = None)
  /\ (forall s, fst (NewAdminServer' config p) = inr s ->
        s = {| ExternalHandlers := []; cfg := config; api := None; router := gin_New |})
  /\ (forall err, fst (NewAdminServer' config p) = inl err <->
        NewAuthService config = Some err
        \/ (NewAuthService config = None /\ NewLicenseService config = Some err)
        \/ (NewAuthService config = None /\ NewLicenseService config = None
            /\ NewQuotaService config = Some err)).
Proof.
  unfold NewAdminServer.
  destruct (NewAuthService config) as [e1|];
    [|destruct (NewLicenseService config) as [e2|];
      [|destruct (NewQuotaService config) as [e3|]]]; simpl.
  all: split; [split; [intros [s H]; discriminate H || (repeat split; reflexivity)
                      | intros (H1 & H2 & H3);
                        first [discriminate H1 | discriminate H2 | discriminate H3
                              | eexists; reflexivity]]|].
  all: split; [intros s H; first [discriminate H | injection H as <-; reflexivity]|].
  all: intros err; split;
    [ intros H; first [discriminate H | injection H as <-; tauto]
    | intros [H|[[H1 H]|(H1 & H2 & H)]];
      first [discriminate H | discriminate H1 | discriminate H2
            | injection H as <-; reflexivity] ].
Qed.


End MoreFacts.

(** ** The runtime view of the sysconfig handler *)

Lemma fold_go_append {A B : Type} (f : A -> B) (l : list A) (acc : slice B) :
  fold_left (fun view x => go_append view (f x)) l acc =
    match l with
    | [] => acc
    | _ => Some (elements_of acc ++ map f l)
    end.
Proof.
  revert acc. induction l as [|x l IH]; intros acc; [reflexivity|].
  simpl. rewrite IH. destruct l as [|y l].
  - reflexivity.
  - unfold go_append, elements_of. simpl. rewrite <- app_assoc. reflexivity.
Qed.

Lemma entry_key_value_runtime_entry (k v : string) :
  entry_key_value (runtime_entry k v) = (k, v).
Proof. reflexivity. Qed.

Lemma runtime_entry_type (k v : string) :
  runtime_entry k v !! "type" = Some "baetyl-function-runtime".
Proof. reflexivity. Qed.

(** X11.  The handler of GET /v1/sysconfig/baetyl-function-runtime returns
    the traced error of [ListRuntimes] when that fails.  Otherwise, in
    whatever order the runtimes are visited, the view has one element per
    runtime, each of type "baetyl-function-runtime", and the keys and
    values of its elements give back the map of runtimes; the view is the
    nil slice exactly when there is no runtime. *)
Theorem sysconfig_function_runtime_view
    (range : gmap string string -> list (string * string)) (Trace : error -> error)
    (c : Context) :
  (forall m, Permutation (range m) (map_to_list m)) ->
  (forall err, sysconfig_function_runtime (inl err) range Trace c = inl (Trace err))
  /\ (forall runtimes, exists view,
        sysconfig_function_runtime (inr runtimes) range Trace c
          = inr {| sysconfigs := view |}
        /\ (view = None <-> runtimes = ∅)
        /\ length (elements_of view) = size runtimes
        /\ (forall e, In e (elements_of view) ->
              e !! "type" = Some "baetyl-function-runtime")
        /\ list_to_map (map entry_key_value (elements_of view)) = runtimes).
Proof.
  intros Hrange. split; [reflexivity|].
  intros m. unfold sysconfig_function_runtime. cbv zeta.
  rewrite (fold_go_append (fun kv => runtime_entry (fst kv) (snd kv))).
  pose proof (Hrange m) as Hp.
  assert (Hlen : length (range m) = size m).
  { rewrite (Permutation_length Hp). apply length_map_to_list. }
  assert (Hmap : (list_to_map (range m) : gmap string string) = m).
  { rewrite <- (list_to_map_to_list m) at 2.
    apply list_to_map_proper; [|exact Hp].
    rewrite Hp. apply NoDup_fst_map_to_list. }
  assert (Hkv : map entry_key_value
                  (map (fun kv => runtime_entry (fst kv) (snd kv)) (range m)) = range m).
  { rewrite map_map. rewrite <- (map_id (range m)) at 2.
    apply map_ext. intros [k v]. reflexivity. }
  destruct (range m) as [|kv l] eqn:E.
  - exists None. split; [reflexivity|].
    assert (Hm : m = ∅).
    { apply map_size_empty_iff. simpl in Hlen. congruence. }
    split; [split; [intros _; exact Hm | reflexivity]|].
    split; [simpl; rewrite Hm; reflexivity|].
    split; [intros e []|]. simpl. rewrite Hm. reflexivity.
  - eexists (Some _). split; [reflexivity|].
    split; [split; [discriminate|]|].
    { intros ->. rewrite map_size_empty in Hlen. discriminate Hlen. }
    unfold elements_of. cbn [default from_option app]. unfold id.
    split; [rewrite length_map; exact Hlen|].
    split.
    + intros e Hin. apply in_map_iff in Hin as ([k v] & <- & _). reflexivity.
    + rewrite Hkv. exact Hmap.
Qed.

(** ** The further properties at the demonstration server *)

Lemma InitRoute_registers_each_route_once_witness :
  router (Demo.server true Demo.api_full) = gin_New
  /\ api (Demo.server true Demo.api_full) = Some Demo.api_full
  /\ exists s' p',
       InitRoute (Demo.server true Demo.api_full) Package_init = Some (s', p')
       /\ List.NoDup (map route_key (trees (router s'))).
Proof.
  split; [reflexivity|]. split; [reflexivity|].
  exact (InitRoute_registers_each_route_once
           (Demo.server true Demo.api_full) Demo.api_full Package_init
           eq_refl eq_refl).
Defined.

Lemma source_routes_follow_plugins_witness :
  router (Demo.server true Demo.api_full) = gin_New
  /\ api (Demo.server true Demo.api_full) = Some Demo.api_full
  /\ exists s' p',
       InitRoute (Demo.server true Demo.api_full) Package_init = Some (s', p')
       /\ In ("GET", "/v1/functions/:source/functions")
            (map route_key (trees (router s')))
       /\ ~ In ("GET", "/v2/objects/:source/buckets")
              (map route_key (trees (router s'))).
Proof.
  split; [reflexivity|]. split; [reflexivity|].
  destruct (source_routes_follow_plugins
              (Demo.server true Demo.api_full) Demo.api_full Package_init
              eq_refl eq_refl) as (s' & p' & HI & HF & HO & _).
  exists s', p'. split; [exact HI|]. split.
  - apply (HF ("GET", "/v1/functions/:source/functions")).
    + left. reflexivity.
    + discriminate.
  - intros Hin.
    apply (HO ("GET", "/v2/objects/:source/buckets")) in Hin.
    + apply Hin. reflexivity.
    + right. right. left. reflexivity.
Defined.

Lemma route_keys_depend_on_plugins_only_witness :
  router (Demo.server true Demo.api_full) = gin_New
  /\ api (Demo.server true Demo.api_full) = Some Demo.api_full
  /\ router (Demo.server false Demo.api_small) = gin_New
  /\ api (Demo.server false Demo.api_small) = Some Demo.api_small
  /\ exists s1' p1' s2' p2',
       InitRoute (Demo.server true Demo.api_full) Package_init = Some (s1', p1')
       /\ InitRoute (Demo.server false Demo.api_small) Package_init = Some (s2', p2')
       /\ map route_key (trees (router s1')) = map route_key (trees (router s2')).
Proof.
  split; [reflexivity|]. split; [reflexivity|].
  split; [reflexivity|]. split; [reflexivity|].
  exact (route_keys_depend_on_plugins_only
           (Demo.server true Demo.api_full) (Demo.server false Demo.api_small)
           Demo.api_full Demo.api_small Package_init Package_init
           eq_refl eq_refl eq_refl eq_refl
           (conj (fun H => H) (fun H => H)) (conj (fun H => H) (fun H => H))).
Defined.

Lemma health_route_has_no_middleware_witness :
  router (Demo.server true Demo.api_full) = gin_New
  /\ api (Demo.server true Demo.api_full) = Some Demo.api_full
  /\ exists s' p',
       InitRoute (Demo.server true Demo.api_full) Package_init = Some (s', p')
       /\ In health_route (trees (router s'))
       /\ allNoRoute (router s') = [RequestIDHandler; LoggerHandler; NoRouteHandler].
Proof.
  split; [reflexivity|]. split; [reflexivity|].
  destruct (health_route_has_no_middleware
              (Demo.server true Demo.api_full) Demo.api_full Package_init
              eq_refl eq_refl) as (s' & p' & HI & _ & Hh & _ & Hnr & _).
  exists s', p'. split; [exact HI|]. split; [exact Hh | exact Hnr].
Defined.

Lemma cache_only_on_GET_routes_witness :
  router (Demo.server true Demo.api_full) = gin_New
  /\ api (Demo.server true Demo.api_full) = Some Demo.api_full
  /\ exists s' p',
       InitRoute (Demo.server true Demo.api_full) Package_init = Some (s', p')
       /\ forall r h, In r (trees (router s')) -> In h (chain r) -> is_cache h = true ->
            Method r = "GET" /\ has_lock (chain r) = false.
Proof.
  split; [reflexivity|]. split; [reflexivity|].
  destruct (cache_only_on_GET_routes
              (Demo.server true Demo.api_full) Demo.api_full Package_init
              eq_refl eq_refl) as (s' & p' & HI & H).
  exists s', p'. split; [exact HI|].
  intros r h Hr Hh Hc. destruct (H r h Hr Hh Hc) as (Hm & _ & _ & _ & _ & Hl & _).
  split; [exact Hm | exact Hl].
Defined.

Lemma validators_run_first_witness :
  router (Demo.server true Demo.api_full) = gin_New
  /\ api (Demo.server true Demo.api_full) = Some Demo.api_full
  /\ exists s' p',
       InitRoute (Demo.server true Demo.api_full) Package_init = Some (s', p')
       /\ forall r v ab, In r (trees (router s')) -> In (WrapperRaw v ab) (chain r) ->
            ab = true.
Proof.
  split; [reflexivity|]. split; [reflexivity|].
  destruct (validators_run_first
              (Demo.server true Demo.api_full) Demo.api_full Package_init
              eq_refl eq_refl) as (s' & p' & HI & H).
  exists s', p'. split; [exact HI|].
  intros r v ab Hr Hh. exact (proj1 (H r v ab Hr Hh)).
Defined.

Lemma terminal_handler_is_last_witness :
  router (Demo.server true Demo.api_full) = gin_New
  /\ api (Demo.server true Demo.api_full) = Some Demo.api_full
  /\ exists s' p',
       InitRoute (Demo.server true Demo.api_full) Package_init = Some (s', p')
       /\ forall r, In r (trees (router s')) -> r <> health_route ->
            exists pre t,
              chain r = pre ++ [t]
              /\ is_terminal t = true
              /\ existsb is_terminal pre = false.
Proof.
  split; [reflexivity|]. split; [reflexivity|].
  exact (terminal_handler_is_last
           (Demo.server true Demo.api_full) Demo.api_full Package_init
           eq_refl eq_refl).
Defined.

Lemma startup_sequence_witness :
  Demo.NewService (Demo.config true) = None
  /\ exists s0 s',
       NewAdminServer Demo.NewService Demo.NewService Demo.NewService
         (Demo.config true) Package_init = (inr s0, Package_init)
       /\ InitRoute s0 Package_init = None
       /\ InitRoute (SetAPI Demo.api_small s0) Package_init
          = Some (s', {| NodeCollector := Some Demo.small_collector |}).
Proof.
  split; [reflexivity|].
  destruct (startup_sequence Demo.NewService Demo.NewService Demo.NewService
              (Demo.config true) Demo.api_small Package_init
              eq_refl eq_refl eq_refl) as (s0 & s' & HN & H0 & HI & _).
  exists s0, s'. split; [exact HN|]. split; [exact H0 | exact HI].
Defined.

Lemma sysconfig_function_runtime_view_witness :
  (forall m : gmap string string, Permutation (map_to_list m) (map_to_list m))
  /\ exists view,
       sysconfig_function_runtime (inr {["python3" := "function-python:3.6"]})
         map_to_list (fun e => e) (Demo.request "GET" "/v1/sysconfig" (Some "ns1"))
       = inr {| sysconfigs := view |}
       /\ list_to_map (map entry_key_value (elements_of view))
          = ({["python3" := "function-python:3.6"]} : gmap string string).
Proof.
  split; [intros m; reflexivity|].
  destruct (proj2 (sysconfig_function_runtime_view map_to_list (fun e => e)
                     (Demo.request "GET" "/v1/sysconfig" (Some "ns1"))
                     (fun m => Permutation_refl _))
                  {["python3" := "function-python:3.6"]})
    as (view & Hv & _ & _ & _ & Hm).
  exists view. split; [exact Hv | exact Hm].
Defined.

(** ** Runs of the sysconfig handlers *)

Example sysconfig_one_runtime :
  sysconfig_function_runtime (inr {["python3" := "function-python:3.6"]})
    map_to_list (fun e => e) (Demo.request "GET" "/v1/sysconfig" (Some "ns1"))
  = inr {| sysconfigs := Some [runtime_entry "python3" "function-python:3.6"] |}.
Proof. vm_compute. reflexivity. Qed.

Example sysconfig_no_runtime :
  sysconfig_function_runtime (inr ∅)
    map_to_list (fun e => e) (Demo.request "GET" "/v1/sysconfig" (Some "ns1"))
  = inr {| sysconfigs := None |}.
Proof. vm_compute. reflexivity. Qed.

Example sysconfig_version :
  sysconfig_baetyl_version (fun _ => inr "v2.2.0")
    (Demo.request "GET" "/v1/sysconfig" (Some "ns1"))
  = inr (<["type" := "baetyl_version"]>
           (<["key" := "latest"]> {["value" := "v2.2.0"]})).
Proof. reflexivity. Qed.
